(** * Cyton impedance check: a shallow embedding and its properties

    The development follows the two Python files of the repository:

    - [src/cyton_impedance_check.py]: the class [ImpedanceCheck]
      (module [ImpedanceCheck] below);
    - [src/cyton_impedance_check.py.py]: the stand-alone script that loops
      over the eight channels (module [Script] below).

    Python objects are modelled by explicit state; every effect on the
    outside world (a command given to the BrainFlow session, a sleep, a
    printed line) is appended to a trace of events, and what the outside
    world answers is a parameter of the development. *)

From Stdlib Require Import ZArith String Ascii List Floats Reals Lra Lia.
From stdpp Require Import base tactics option list strings gmap pretty.

Set Warnings "-inexact-float".
Local Open Scope Z_scope.
Local Open Scope string_scope.
Local Open Scope list_scope.

(** ** Python exceptions and results *)

Inductive ExcType :=
| IndexError
| KeyError
| AttributeError
| ZeroDivisionError
| OverflowError
| ValueError
| RuntimeError
| UnicodeDecodeError
| BrainFlowError.

Record PyExc := mkExc { exc_type : ExcType; exc_msg : string }.

#[global] Instance ExcType_eq_dec : EqDecision ExcType.
Proof. solve_decision. Defined.

(** The outcome of evaluating an expression or running a statement. *)
Inductive Py (A : Type) :=
| Ok (a : A)
| Raise (e : PyExc).
Arguments Ok {A} a.
Arguments Raise {A} e.

Definition is_ok {A} (r : Py A) : bool :=
  match r with Ok _ => true | Raise _ => false end.

Definition raised {A} (r : Py A) : option ExcType :=
  match r with Ok _ => None | Raise e => Some (exc_type e) end.

(** Pure code that can raise. *)
Definition pbind {A B} (r : Py A) (k : A -> Py B) : Py B :=
  match r with Ok a => k a | Raise e => Raise e end.

(** Stateful code: the state survives an exception, as a mutated Python
    object does. *)
Definition M (S A : Type) : Type := S -> Py A * S.

Definition ret {S A} (a : A) : M S A := fun s => (Ok a, s).
Definition throw {S A} (e : PyExc) : M S A := fun s => (Raise e, s).
Definition bind {S A B} (m : M S A) (k : A -> M S B) : M S B :=
  fun s => match m s with
           | (Ok a, s') => k a s'
           | (Raise e, s') => (Raise e, s')
           end.
Definition lift {S A} (r : Py A) : M S A := fun s => (r, s).
Definition get {S} : M S S := fun s => (Ok s, s).
Definition modify {S} (f : S -> S) : M S unit := fun s => (Ok tt, f s).

(** [try: m except T: h]: only exceptions accepted by [catches] are
    handled. *)
Definition try_except {S A} (m : M S A) (catches : PyExc -> bool)
    (h : PyExc -> M S A) : M S A :=
  fun s => match m s with
           | (Ok a, s') => (Ok a, s')
           | (Raise e, s') => if catches e then h e s' else (Raise e, s')
           end.

(** [try: m finally: f]. *)
Definition try_finally {S A} (m : M S A) (f : M S unit) : M S A :=
  fun s => match m s with
           | (r, s') =>
               match f s' with
               | (Ok _, s'') => (r, s'')
               | (Raise e, s'') => (Raise e, s'')
               end
           end.

Declare Scope py_scope.
Delimit Scope py_scope with py.
Notation "x <- m ;; k" := (bind m (fun x => k))
  (at level 100, m at next level, right associativity) : py_scope.
Notation "m ;;; k" := (bind m (fun _ => k))
  (at level 100, right associativity) : py_scope.

(** ** Python sequences *)

(** Position designated by a Python index: negative indices count from
    the end, anything else out of range designates nothing. *)
Definition py_index {A} (l : list A) (i : Z) : option nat :=
  let n := Z.of_nat (length l) in
  if decide (0 <= i < n) then Some (Z.to_nat i)
  else if decide (- n <= i < 0) then Some (Z.to_nat (n + i))
  else None.

Definition index_error : PyExc := mkExc IndexError "list index out of range".

(** [l[i]] *)
Definition py_getitem {A} (l : list A) (i : Z) : Py A :=
  match py_index l i with
  | Some k => match l !! k with Some x => Ok x | None => Raise index_error end
  | None => Raise index_error
  end.

(** [l[i] = x] *)
Definition py_setitem {A} (l : list A) (i : Z) (x : A) : Py (list A) :=
  match py_index l i with
  | Some k => Ok (<[k:=x]> l)
  | None => Raise index_error
  end.

(** [x[-n:]]: the last [n] items when [n] is positive, everything when
    [n] is zero (then [-n] is [0]), and the items from position [-n] on
    when [n] is negative. *)
Definition py_slice_from {A} (l : list A) (start : Z) : list A :=
  let n := Z.of_nat (length l) in
  if decide (start < 0)
  then drop (Z.to_nat (Z.max 0 (n + start))) l
  else drop (Z.to_nat (Z.min start n)) l.

Definition py_last_n {A} (l : list A) (n : Z) : list A := py_slice_from l (- n).

(** [d[k]] on a dictionary with string keys. *)
Definition key_error (k : string) : PyExc := mkExc KeyError k.

Definition dict_get {V} (d : gmap string V) (k : string) : Py V :=
  match d !! k with Some v => Ok v | None => Raise (key_error k) end.

(** ** The outside world *)

(** What the program does to the outside world, in the order it does it. *)
Inductive Event :=
| EConfig (cmd : string)        (* board.config_board(cmd) *)
| EPrepareSession               (* board.prepare_session() *)
| EReleaseSession               (* board.release_session() *)
| EStartStream                  (* board.start_stream() *)
| EStopStream                   (* board.stop_stream() *)
| EGetBoardData                 (* board.get_board_data() *)
| ESleep (secs : float)         (* time.sleep(secs) *)
| EPrint (line : string).       (* print(line) *)

Definition Trace := list Event.

(** A BrainFlow [BoardShim] object: what its constructor was given. *)
Record BoardShim := mkBoard { board_id : Z; serial_port : string }.

(** What BrainFlow, SciPy and NumPy answer.  Every answer of the session
    may depend on all that happened before. *)
Record Env := mkEnv {
  CYTON_BOARD : Z;                                  (* BoardIds.CYTON_BOARD.value *)
  get_sampling_rate : Z -> Py Z;                    (* BoardShim.get_sampling_rate *)
  get_eeg_channels : Z -> Py (list Z);              (* BoardShim.get_eeg_channels *)
  config_reply : Trace -> string -> Py string;      (* board.config_board *)
  session_reply : Trace -> Event -> Py unit;        (* prepare/release/start/stop *)
  data_reply : Trace -> Py (list (list float));     (* board.get_board_data: rows *)
  scipy_bandpass : float -> float -> list float -> Py (list float);
        (* iirfilter(4, [lo, hi], btype='band', ftype='butter') then filtfilt *)
  np_mean : list float -> float;                    (* np.mean *)
  np_std : list float -> float;                     (* np.std(., ddof=0) *)
  format_2f : float -> string                       (* format(., '.2f') *)
}.

Definition emit (e : Event) : M Trace unit := modify (fun t => t ++ [e]).

Definition sleep (secs : float) : M Trace unit := emit (ESleep secs).
Definition print (line : string) : M Trace unit := emit (EPrint line).

Definition board_config_board (env : Env) (cmd : string) : M Trace string :=
  fun t => (config_reply env t cmd, t ++ [EConfig cmd]).

Definition board_session (env : Env) (e : Event) : M Trace unit :=
  fun t => (session_reply env t e, t ++ [e]).

Definition board_get_board_data (env : Env) : M Trace (list (list float)) :=
  fun t => (data_reply env t, t ++ [EGetBoardData]).

(** [str(e)] *)
Definition exc_str (e : PyExc) : string := exc_msg e.

Definition is_exc (ty : ExcType) (e : PyExc) : bool :=
  bool_decide (exc_type e = ty).

(** [except Exception] catches every exception of the model. *)
Definition any_exception (e : PyExc) : bool := true.

(** ** Formatting *)

(** [f"{n}"] for an integer. *)
Definition fmt (n : Z) : string := pretty n.

(** A channel configuration: a dictionary from field names to integers. *)
Abbreviation Cfg := (gmap string Z).

Definition mk_cfg (gain input_type bias srb2 srb1 : Z) : Cfg :=
  <["gain" := gain]> (<["input_type" := input_type]> (<["bias" := bias]>
    (<["srb2" := srb2]> (<["srb1" := srb1]> ∅)))).

(** ** Python and NumPy floating point (IEEE 754 binary64) *)

(** [float(n)] for an integer [n]: round to nearest even; too large a
    magnitude is an error. *)
Definition py_float_of_int (n : Z) : Py float :=
  let f := SF2Prim (binary_normalize prec emax n 0 false) in
  if is_infinity f
  then Raise (mkExc OverflowError "int too large to convert to float")
  else Ok f.

(** [int(x)]: truncation towards zero. *)
Definition py_int_of_float (x : float) : Py Z :=
  match Prim2SF x with
  | S754_zero _ => Ok 0
  | S754_infinity _ =>
      Raise (mkExc OverflowError "cannot convert float infinity to integer")
  | S754_nan => Raise (mkExc ValueError "cannot convert float NaN to integer")
  | S754_finite s m e =>
      let a := if decide (0 <= e) then Z.pos m * 2 ^ e
               else Z.pos m `quot` 2 ^ (- e) in
      Ok (if s then - a else a)
  end.

(** [a / b] on Python floats. *)
Definition py_truediv (a b : float) : Py float :=
  if (b =? 0)%float
  then Raise (mkExc ZeroDivisionError "float division by zero")
  else Ok (a / b)%float.

(** [max(a, b)]: the first argument unless the second is greater. *)
Definition py_max (a b : float) : float :=
  if (a <? b)%float then b else a.

(** [np.isfinite] *)
Definition np_isfinite (x : float) : bool := is_finite x.

(** [x ** 2] on an array. *)
Definition np_square (x : list float) : list float :=
  map (fun v => (v * v)%float) x.

(** ** Exact arithmetic *)

(** The numeric code read over the real numbers, where no rounding, no
    overflow and no NaN occur. *)
Definition Rsum (l : list R) : R := fold_right Rplus 0%R l.

Definition Rmean (l : list R) : R := (Rsum l / INR (length l))%R.

(** [np.std(., ddof=0)]: the root of the mean squared distance to the
    mean. *)
Definition Rstd (l : list R) : R :=
  sqrt (Rmean (map (fun v => ((v - Rmean l) * (v - Rmean l))%R) l)).

(** [np.sqrt(np.mean(. ** 2))] *)
Definition Rrms (l : list R) : R :=
  sqrt (Rmean (map (fun v => (v * v)%R) l)).

(** * The class [ImpedanceCheck] (src/cyton_impedance_check.py) *)

Module ImpedanceCheck.

(** ** Constants and object state *)

Definition SERIES_R : float := 2200.0%float.
Definition I_DRIVE : float := 6.0e-9%float.
Definition MEAS_SEC : float := 6.0%float.
Definition BAND : Z * Z := (5, 50).

Definition STREAM_CFG_DEFAULT : Cfg := mk_cfg 6 0 1 1 0.
Definition IMP_CFG : Cfg := mk_cfg 0 0 1 0 0.

(** The attributes of an instance. *)
Record Self := mkSelf {
  port : string;
  impedance_data : list float;
  _ch_cfg : list Cfg;
  _ch_last_cfg : list (option Cfg);
  board : option BoardShim;
  fs : Z
}.

Record World := mkWorld { self : Self; trace : Trace }.

Definition set_ch_cfg (l : list Cfg) (w : World) : World :=
  mkWorld (mkSelf (port (self w)) (impedance_data (self w)) l
             (_ch_last_cfg (self w)) (board (self w)) (fs (self w))) (trace w).

Definition set_ch_last_cfg (l : list (option Cfg)) (w : World) : World :=
  mkWorld (mkSelf (port (self w)) (impedance_data (self w)) (_ch_cfg (self w))
             l (board (self w)) (fs (self w))) (trace w).

Definition set_board (b : option BoardShim) (w : World) : World :=
  mkWorld (mkSelf (port (self w)) (impedance_data (self w)) (_ch_cfg (self w))
             (_ch_last_cfg (self w)) b (fs (self w))) (trace w).

Definition set_fs (f : Z) (w : World) : World :=
  mkWorld (mkSelf (port (self w)) (impedance_data (self w)) (_ch_cfg (self w))
             (_ch_last_cfg (self w)) (board (self w)) f) (trace w).

(** Run code that only touches the outside world. *)
Definition io {A} (m : M Trace A) : M World A :=
  fun w => let (r, t) := m (trace w) in (r, mkWorld (self w) t).

(** [__init__]: eight channels in the streaming default, nothing saved,
    no session yet.  [fs] is the class attribute until [prepare_board]
    overwrites it. *)
Definition init (port : string) : Self :=
  mkSelf port [] (replicate 8 STREAM_CFG_DEFAULT) (replicate 8 None) None 250.

(** ** Command builders *)

Definition build_channel_settings_cmd
    (ch gain input_type bias srb2 srb1 power_down : Z) : string :=
  "x" +:+ fmt ch +:+ fmt power_down +:+ fmt gain +:+ fmt input_type
      +:+ fmt bias +:+ fmt srb2 +:+ fmt srb1 +:+ "X".

Definition build_impedance_cmd (ch : Z) (active is_n : bool) : string :=
  let p := "0" in
  let n := "0" in
  let '(p, n) :=
    if active then (if is_n then (p, "1") else ("1", n)) else (p, n) in
  "z" +:+ fmt ch +:+ p +:+ n +:+ "Z".

(** ** Talking to the session held in [self.board] *)

Definition none_has_no (attr : string) : PyExc :=
  mkExc AttributeError ("'NoneType' object has no attribute '" +:+ attr +:+ "'").

(** A method call on [self.board]; on [None] the attribute lookup fails. *)
Definition on_board {A} (attr : string) (b : option BoardShim)
    (m : BoardShim -> M Trace A) : M World A :=
  match b with
  | Some bs => io (m bs)
  | None => throw (none_has_no attr)
  end.

(** ** [reset_to_defaults] *)

Definition reset_to_defaults (env : Env) (b : option BoardShim)
    : M World (bool * string) :=
  try_except
    (_ <- on_board "config_board" b (fun _ => board_config_board env "d") ;;
     io (sleep 0.1) ;;;
     ret (true, "OK"))%py
    any_exception
    (fun e => ret (false, "ERR: " +:+ exc_str e)).

(** ** [change_leadoff] *)

Definition change_leadoff (env : Env) (ch : Z) (is_on : bool) : M World unit :=
  let ch_idx := ch - 1 in
  let is_n := true in
  ((if is_on then
      w <- get ;;
      cur <- lift (py_getitem (_ch_cfg (self w)) ch_idx) ;;
      last' <- lift (py_setitem (_ch_last_cfg (self w)) ch_idx (Some cur)) ;;
      modify (set_ch_last_cfg last') ;;;
      w <- get ;;
      cfg' <- lift (py_setitem (_ch_cfg (self w)) ch_idx IMP_CFG) ;;
      modify (set_ch_cfg cfg')
    else
      w <- get ;;
      saved <- lift (py_getitem (_ch_last_cfg (self w)) ch_idx) ;;
      match saved with
      | Some c =>
          cfg' <- lift (py_setitem (_ch_cfg (self w)) ch_idx c) ;;
          modify (set_ch_cfg cfg') ;;;
          w <- get ;;
          last' <- lift (py_setitem (_ch_last_cfg (self w)) ch_idx None) ;;
          modify (set_ch_last_cfg last')
      | None =>
          cfg' <- lift (py_setitem (_ch_cfg (self w)) ch_idx STREAM_CFG_DEFAULT) ;;
          modify (set_ch_cfg cfg')
      end) ;;;
   w <- get ;;
   cfg <- lift (py_getitem (_ch_cfg (self w)) ch_idx) ;;
   gain <- lift (dict_get cfg "gain") ;;
   input_type <- lift (dict_get cfg "input_type") ;;
   bias <- lift (dict_get cfg "bias") ;;
   srb2 <- lift (dict_get cfg "srb2") ;;
   srb1 <- lift (dict_get cfg "srb1") ;;
   let x_cmd := build_channel_settings_cmd ch gain input_type bias srb2 srb1 0 in
   let z_cmd := build_impedance_cmd ch is_on is_n in
   let cmd := x_cmd +:+ z_cmd in
   try_except
     (resp <- on_board "config_board" (board (self w))
                (fun _ => board_config_board env cmd) ;;
      io (print ("Ch" +:+ fmt ch +:+ " Cmd: " +:+ cmd +:+ " | Resp: " +:+ resp)))
     (is_exc UnicodeDecodeError)
     (fun _ => io (print ("Ch" +:+ fmt ch +:+ " Cmd: " +:+ cmd
                            +:+ " | (Success, decode error ignored)"))) ;;;
   io (sleep 0.1))%py.

(** ** Signal processing *)

Definition calc_impedance_from_vrms (vrms_uV : float) : float :=
  let Vrms_V := (vrms_uV * 1e-6)%float in
  let Z := ((PrimFloat.sqrt 2.0 * Vrms_V) / I_DRIVE)%float in
  let Z := (Z - SERIES_R)%float in
  py_max Z 0.0%float.

Definition take_recent_1s (env : Env) (x_uV : list float) (fs : Z) : Py float :=
  pbind (py_float_of_int fs) (fun fs_f =>
  pbind (py_int_of_float (fs_f * 1.0)%float) (fun n =>
  let seg := py_last_n x_uV n in
  Ok (PrimFloat.sqrt (np_mean env (np_square seg))))).

Definition bandpass_apply (env : Env) (x : list float) (fs : Z)
    : Py (list float) :=
  pbind (py_float_of_int fs) (fun fs_f =>
  pbind (py_float_of_int (fst BAND)) (fun lo_hz =>
  pbind (py_truediv lo_hz (fs_f / 2.0)%float) (fun lo =>
  pbind (py_float_of_int (snd BAND)) (fun hi_hz =>
  pbind (py_truediv hi_hz (fs_f / 2.0)%float) (fun hi =>
  scipy_bandpass env lo hi x))))).

(** ** Session life cycle *)

Definition prepare_board (env : Env) : M World unit :=
  (w <- get ;;
   if bool_decide (port (self w) = "")
   then throw (mkExc RuntimeError "Cyton serial port not specified.")
   else
     let board_id := CYTON_BOARD env in
     rate <- lift (get_sampling_rate env board_id) ;;
     modify (set_fs rate) ;;;
     modify (set_board (Some (mkBoard board_id (port (self w))))) ;;;
     w <- get ;;
     on_board "prepare_session" (board (self w))
       (fun _ => board_session env EPrepareSession))%py.

Definition stop_board (env : Env) : M World unit :=
  (w <- get ;;
   _ <- reset_to_defaults env (board (self w)) ;;
   w <- get ;;
   try_except
     (on_board "release_session" (board (self w))
        (fun _ => board_session env EReleaseSession))
     any_exception
     (fun _ => ret tt))%py.

(** ** [check_impedance] *)

(** The value computed from the RMS estimate, in ohms. *)
Definition z_ohm_of (uVrms : float) : float :=
  if np_isfinite uVrms then calc_impedance_from_vrms uVrms else nan.

Definition check_impedance (env : Env) (ch : Z) : M World float :=
  (w <- get ;;
   _ <- reset_to_defaults env (board (self w)) ;;
   change_leadoff env ch true ;;;
   w <- get ;;
   on_board "start_stream" (board (self w))
     (fun _ => board_session env EStartStream) ;;;
   w <- get ;;
   _ <- on_board "get_board_data" (board (self w))
          (fun _ => board_get_board_data env) ;;
   io (sleep (MEAS_SEC + 0.2)%float) ;;;
   w <- get ;;
   data <- on_board "get_board_data" (board (self w))
             (fun _ => board_get_board_data env) ;;
   w <- get ;;
   bid <- on_board "get_board_id" (board (self w))
            (fun bs => ret (board_id bs)) ;;
   eeg_idxs <- lift (get_eeg_channels env bid) ;;
   row <- lift (py_getitem eeg_idxs (ch - 1)) ;;
   x_uV <- lift (py_getitem data row) ;;
   w <- get ;;
   x_bp <- lift (bandpass_apply env x_uV (fs (self w))) ;;
   w <- get ;;
   uVrms <- lift (take_recent_1s env x_bp (fs (self w))) ;;
   let z_ohm := z_ohm_of uVrms in
   w <- get ;;
   on_board "stop_stream" (board (self w))
     (fun _ => board_session env EStopStream) ;;;
   change_leadoff env ch false ;;;
   ret (z_ohm / 1000.0)%float)%py.

(** A caller's loop over several channels, [check_impedance] for each
    in turn: [[self.check_impedance(ch) for ch in channels]]. *)
Fixpoint check_channels (env : Env) (channels : list Z) : M World (list float) :=
  match channels with
  | [] => ret []
  | ch :: rest =>
      (z <- check_impedance env ch ;;
       zs <- check_channels env rest ;;
       ret (z :: zs))%py
  end.

(** ** The numeric code in exact arithmetic *)

Module Exact.

Definition SERIES_R : R := 2200%R.
Definition I_DRIVE : R := (6 / 1000000000)%R.

Definition calc_impedance_from_vrms (vrms_uV : R) : R :=
  let Vrms_V := (vrms_uV * (1 / 1000000))%R in
  let Z := ((sqrt 2 * Vrms_V) / I_DRIVE)%R in
  let Z := (Z - SERIES_R)%R in
  Rmax Z 0.

Definition take_recent_1s (x_uV : list R) (fs : Z) : R :=
  let n := fs in
  let seg := py_last_n x_uV n in
  Rrms seg.

End Exact.

End ImpedanceCheck.

(** * The stand-alone script (src/cyton_impedance_check.py.py) *)

Module Script.

Definition SERIES_R : float := 2200.0%float.
Definition I_DRIVE : float := 6.0e-9%float.
Definition MEAS_SEC : float := 2.0%float.
Definition SETTLE_SEC : float := 2.0%float.
Definition BAND : Z * Z := (5, 50).
Definition CABLE_COLORS : list string :=
  ["gray"; "purple"; "blue"; "green"; "yellow"; "orange"; "red"; "brown"].

Definition set_ads_to_impedance_on (env : Env) (ch : Z) : M Trace unit :=
  let ads_cmd := "x" +:+ fmt ch +:+ "0" in
  let ads_cmd := ads_cmd +:+ "0" in
  let ads_cmd := ads_cmd +:+ "0" in
  let ads_cmd := ads_cmd +:+ "1" in
  let ads_cmd := ads_cmd +:+ "0" in
  let ads_cmd := ads_cmd +:+ "0" in
  let ads_cmd := ads_cmd +:+ "X" in
  (_ <- board_config_board env ads_cmd ;;
   sleep 0.02)%py.

(** The sleep written after the [return] statements is never reached. *)
Definition reset_to_defaults (env : Env) : M Trace (bool * string) :=
  try_except
    (_ <- board_config_board env "d" ;;
     ret (true, "OK"))%py
    any_exception
    (fun e => ret (false, "ERR: " +:+ exc_str e)).

Definition calc_impedance_from_vrms (vrms_uV : float) : float :=
  let Vrms_V := (vrms_uV * 1e-6)%float in
  let Z := ((PrimFloat.sqrt 2.0 * Vrms_V) / I_DRIVE)%float in
  let Z := (Z - SERIES_R)%float in
  py_max Z 0.0%float.

Definition take_recent_1s (env : Env) (x_uV : list float) (fs : Z) : Py float :=
  pbind (py_float_of_int fs) (fun fs_f =>
  pbind (py_int_of_float (fs_f * 1.0)%float) (fun n =>
  let seg := py_last_n x_uV n in
  Ok (np_std env seg))).

Definition bandpass_apply (env : Env) (x : list float) (fs : Z)
    : Py (list float) :=
  pbind (py_float_of_int fs) (fun fs_f =>
  pbind (py_float_of_int (fst BAND)) (fun lo_hz =>
  pbind (py_truediv lo_hz (fs_f / 2.0)%float) (fun lo =>
  pbind (py_float_of_int (snd BAND)) (fun hi_hz =>
  pbind (py_truediv hi_hz (fs_f / 2.0)%float) (fun hi =>
  scipy_bandpass env lo hi x))))).

Definition send_leadoff (env : Env) (ch p_apply n_apply : Z) : M Trace unit :=
  let cmd := "z" +:+ fmt ch +:+ fmt p_apply +:+ fmt n_apply +:+ "Z" in
  (_ <- board_config_board env cmd ;;
   sleep 0.02)%py.

(** The value stored for a channel, in kilo-ohms. *)
Definition z_kohm_of (uVrms : float) : float :=
  if np_isfinite uVrms
  then (calc_impedance_from_vrms uVrms / 1000.0)%float
  else nan.

(** One turn of the loop of [check_impedance]. *)
Definition measure_channel (env : Env) (board_id fs ch : Z)
    : M Trace (Z * float) :=
  (set_ads_to_impedance_on env ch ;;;
   send_leadoff env ch 0 1 ;;;
   sleep SETTLE_SEC ;;;
   _ <- board_get_board_data env ;;
   sleep (MEAS_SEC + 0.2)%float ;;;
   data <- board_get_board_data env ;;
   eeg_idxs <- lift (get_eeg_channels env board_id) ;;
   row <- lift (py_getitem eeg_idxs (ch - 1)) ;;
   x_uV <- lift (py_getitem data row) ;;
   x_bp <- lift (bandpass_apply env x_uV fs) ;;
   uVrms <- lift (take_recent_1s env x_bp fs) ;;
   let z_kohm := z_kohm_of uVrms in
   color <- lift (py_getitem CABLE_COLORS (ch - 1)) ;;
   print ("CH" +:+ fmt ch +:+ "(" +:+ color +:+ "): "
            +:+ format_2f env z_kohm +:+ " kΩ") ;;;
   send_leadoff env ch 0 0 ;;;
   ret (ch, z_kohm))%py.

(** [for ch in channels: ...; z_list.append((ch, z_kohm))] *)
Fixpoint measure_loop (env : Env) (board_id fs : Z) (channels : list Z)
    (z_list : list (Z * float)) : M Trace (list (Z * float)) :=
  match channels with
  | [] => ret z_list
  | ch :: rest =>
      (r <- measure_channel env board_id fs ch ;;
       measure_loop env board_id fs rest (z_list ++ [r]))%py
  end.

Definition check_impedance (env : Env) (channels : list Z)
    : M Trace (list (Z * float)) :=
  let port := "/dev/cu.usbserial-DP04WG3L" in
  if bool_decide (port = "")
  then throw (mkExc RuntimeError "Cyton serial port not found.")
  else
    let board_id := CYTON_BOARD env in
    (fs <- lift (get_sampling_rate env board_id) ;;
     try_finally
       (board_session env EPrepareSession ;;;
        board_session env EStartStream ;;;
        z_list <- measure_loop env board_id fs channels [] ;;
        board_session env EStopStream ;;;
        _ <- reset_to_defaults env ;;
        ret z_list)
       (try_except (board_session env EReleaseSession)
          any_exception (fun _ => ret tt)))%py.

Definition default_channels : list Z := [1; 2; 3; 4; 5; 6; 7; 8].

(** ** The numeric code in exact arithmetic *)

Module Exact.

Definition take_recent_1s (x_uV : list R) (fs : Z) : R :=
  let n := fs in
  let seg := py_last_n x_uV n in
  Rstd seg.

End Exact.

End Script.

(** * Reading a trace *)

(** The commands given to the session, oldest first. *)
Fixpoint cmds (t : Trace) : list string :=
  match t with
  | [] => []
  | EConfig c :: t' => c :: cmds t'
  | _ :: t' => cmds t'
  end.

(** Switch the lead-off current of channel [c] on or off in the list of
    the channels that have it on. *)
Definition set_leadoff (c : ascii) (on : bool) (chans : list ascii) : list ascii :=
  let others := filter (fun c' => c' ≠ c) chans in
  if on then c :: others else others.

(** The front end reads a lead-off command [z (CHANNEL, P, N) Z] (formats
    as documented with [build_impedance_cmd] and [send_leadoff]): the
    current of the channel is on when it is applied to the P or to the N
    input.  Other characters do not touch the lead-off current. *)
Fixpoint scan_leadoff (s : string) (chans : list ascii) : list ascii :=
  match s with
  | String "z" (String c (String p (String n (String "Z" rest)))) =>
      scan_leadoff rest
        (set_leadoff c (bool_decide (p = "1"%char) || bool_decide (n = "1"%char)) chans)
  | String _ rest => scan_leadoff rest chans
  | EmptyString => chans
  end.

(** The channels whose lead-off current is on after a sequence of
    commands, starting with the current off everywhere. *)
Definition leadoff_after (cs : list string) : list ascii :=
  fold_left (fun chans c => scan_leadoff c chans) cs [].

Definition leadoff_on (t : Trace) : list ascii := leadoff_after (cmds t).

(** At every instant of the trace at most one channel has the lead-off
    current on. *)
Definition exclusive (t : Trace) : Prop :=
  ∀ p : Trace, p `prefix_of` t → (length (leadoff_on p) ≤ 1)%nat.

(** The channels whose saved slot is populated. *)
Definition saved_channels (last : list (option Cfg)) : list nat :=
  filter (fun i => is_Some (mjoin (last !! i))) (seq 0 (length last)).

(** * Vocabulary of the statements *)

(** The last part of [change_leadoff]: give the command to the session,
    report, wait. *)
Definition leadoff_send (env : Env) (ch : Z) (cmd : string)
    : M ImpedanceCheck.World unit :=
  (w <- get ;;
   try_except
     (resp <- ImpedanceCheck.on_board "config_board"
                (ImpedanceCheck.board (ImpedanceCheck.self w))
                (fun _ => board_config_board env cmd) ;;
      ImpedanceCheck.io
        (print ("Ch" +:+ fmt ch +:+ " Cmd: " +:+ cmd +:+ " | Resp: " +:+ resp)))
     (is_exc UnicodeDecodeError)
     (fun _ => ImpedanceCheck.io
                 (print ("Ch" +:+ fmt ch +:+ " Cmd: " +:+ cmd
                           +:+ " | (Success, decode error ignored)"))) ;;;
   ImpedanceCheck.io (sleep 0.1))%py.

(** The command [change_leadoff] sends for a channel whose configuration
    holds the given five values. *)
Definition leadoff_cmd (ch : Z) (is_on : bool)
    (gain input_type bias srb2 srb1 : Z) : string :=
  ImpedanceCheck.build_channel_settings_cmd ch gain input_type bias srb2 srb1 0
  +:+ ImpedanceCheck.build_impedance_cmd ch is_on true.

(** A configuration with the five fields the commands need. *)
Definition has_fields (c : Cfg) (gain input_type bias srb2 srb1 : Z) : Prop :=
  c !! "gain" = Some gain /\ c !! "input_type" = Some input_type /\
  c !! "bias" = Some bias /\ c !! "srb2" = Some srb2 /\ c !! "srb1" = Some srb1.

(** The session accepts every command: [config_board] answers, or fails
    only to decode the answer. *)
Definition accepts_commands (env : Env) : Prop :=
  forall t cmd, match config_reply env t cmd with
                | Ok _ => True
                | Raise e => exc_type e = UnicodeDecodeError
                end.


(** A session on which everything succeeds, to run the code on concrete
    inputs: eight acquisition rows of two samples each, a filter that
    returns its input, the mean and the deviation of a constant signal. *)
Definition demo_env : Env :=
  mkEnv 0 (fun _ => Ok 250) (fun _ => Ok [1; 2; 3; 4; 5; 6; 7; 8])
    (fun _ _ => Ok "Success") (fun _ _ => Ok tt)
    (fun _ => Ok (replicate 9 [1%float; 1%float]))
    (fun _ _ x => Ok x) (fun _ => 1%float) (fun _ => 0%float)
    (fun _ => "0.00").

(** A fresh object after [prepare_board]. *)
Definition demo_world : ImpedanceCheck.World :=
  snd (ImpedanceCheck.prepare_board demo_env
         (ImpedanceCheck.mkWorld (ImpedanceCheck.init "/dev/ttyUSB0") [])).


(** The commands of one turn of the script's loop, and of one call of
    the class's [check_impedance] on a channel in the streaming default. *)
Definition script_cycle (ch : Z) : list string :=
  ["x" +:+ fmt ch +:+ "000100X"; "z" +:+ fmt ch +:+ "01Z"; "z" +:+ fmt ch +:+ "00Z"].

Definition class_cycle (ch : Z) : list string :=
  ["d"; leadoff_cmd ch true 0 0 1 0 0; leadoff_cmd ch false 6 0 1 1 0].

(** The lead-off currents after a sequence of commands, from a given
    start. *)
Definition leadoff_from (chans : list ascii) (cs : list string) : list ascii :=
  fold_left (fun chans c => scan_leadoff c chans) cs chans.

(** A sequence of commands that starts and ends with every lead-off
    current off, and never has more than one on. *)
Definition quiet_cycle (cyc : list string) : Prop :=
  leadoff_from [] cyc = [] /\
  forall q, q `prefix_of` cyc -> (length (leadoff_from [] q) <= 1)%nat.

(** [runs tr st m x full x']: started in a state whose data is [x], the
    code [m] adds to the trace commands that form a beginning of [full];
    when it returns normally it has sent all of [full] and the data of the
    state is [x']. *)
Definition runs {S X A : Type} (tr : S -> Trace) (st : S -> X)
    (m : M S A) (x : X) (full : list string) (x' : X) : Prop :=
  forall s, st s = x ->
    exists tl, tr (snd (m s)) = tr s ++ tl /\
               cmds tl `prefix_of` full /\
               (is_ok (fst (m s)) = true -> cmds tl = full /\ st (snd (m s)) = x').


(** The attributes after lead-off was enabled on a channel whose current
    configuration was [cur], and after it was disabled with [c] saved. *)
Definition enabled (ch : Z) (cur : Cfg) (s : ImpedanceCheck.Self)
    : ImpedanceCheck.Self :=
  ImpedanceCheck.mkSelf (ImpedanceCheck.port s) (ImpedanceCheck.impedance_data s)
    (<[Z.to_nat (ch - 1) := ImpedanceCheck.IMP_CFG]> (ImpedanceCheck._ch_cfg s))
    (<[Z.to_nat (ch - 1) := Some cur]> (ImpedanceCheck._ch_last_cfg s))
    (ImpedanceCheck.board s) (ImpedanceCheck.fs s).

Definition disabled (ch : Z) (c : Cfg) (s : ImpedanceCheck.Self)
    : ImpedanceCheck.Self :=
  ImpedanceCheck.mkSelf (ImpedanceCheck.port s) (ImpedanceCheck.impedance_data s)
    (<[Z.to_nat (ch - 1) := c]> (ImpedanceCheck._ch_cfg s))
    (<[Z.to_nat (ch - 1) := None]> (ImpedanceCheck._ch_last_cfg s))
    (ImpedanceCheck.board s) (ImpedanceCheck.fs s).

(** Eight channels in the streaming default with nothing saved. *)
Definition fresh_tables (s : ImpedanceCheck.Self) : Prop :=
  ImpedanceCheck._ch_cfg s = replicate 8 ImpedanceCheck.STREAM_CFG_DEFAULT /\
  ImpedanceCheck._ch_last_cfg s = replicate 8 None.


(** * Properties *)

(** ** Python sequences *)

Lemma py_index_nonneg {A} (l : list A) (i : Z) :
  0 <= i < Z.of_nat (length l) -> py_index l i = Some (Z.to_nat i).
Proof.
  intros H. unfold py_index. rewrite decide_True; auto.
Qed.

Lemma py_index_negative {A} (l : list A) (i : Z) :
  - Z.of_nat (length l) <= i < 0 ->
  py_index l i = Some (Z.to_nat (Z.of_nat (length l) + i)).
Proof.
  intros H. unfold py_index.
  rewrite decide_False by lia. rewrite decide_True; auto.
Qed.

Lemma py_index_out {A} (l : list A) (i : Z) :
  i < - Z.of_nat (length l) \/ Z.of_nat (length l) <= i -> py_index l i = None.
Proof.
  intros H. unfold py_index.
  rewrite decide_False by lia. rewrite decide_False by lia. reflexivity.
Qed.

Lemma py_index_lt {A} (l : list A) (i : Z) (k : nat) :
  py_index l i = Some k -> (k < length l)%nat.
Proof.
  unfold py_index. repeat case_decide; intros [= <-]; lia.
Qed.

Lemma py_getitem_nonneg {A} (l : list A) (i : Z) (x : A) :
  0 <= i -> l !! Z.to_nat i = Some x -> py_getitem l i = Ok x.
Proof.
  intros Hi Hx. unfold py_getitem.
  pose proof (lookup_lt_Some _ _ _ Hx).
  rewrite py_index_nonneg by lia. rewrite Hx. reflexivity.
Qed.

Lemma py_setitem_nonneg {A} (l : list A) (i : Z) (x : A) :
  0 <= i < Z.of_nat (length l) -> py_setitem l i x = Ok (<[Z.to_nat i := x]> l).
Proof.
  intros Hi. unfold py_setitem. rewrite py_index_nonneg by lia. reflexivity.
Qed.

Lemma py_getitem_out {A} (l : list A) (i : Z) :
  i < - Z.of_nat (length l) \/ Z.of_nat (length l) <= i ->
  py_getitem l i = Raise index_error.
Proof.
  intros H. unfold py_getitem. rewrite py_index_out by assumption. reflexivity.
Qed.

(** ** Running monadic code step by step *)

Section Steps.
Context {S A B : Type}.
Implicit Types (s : S) (k : A -> M S B).

Lemma bind_ret (a : A) k s : bind (ret a) k s = k a s.
Proof. reflexivity. Qed.

Lemma bind_throw (e : PyExc) k s : bind (throw e) k s = (Raise e, s).
Proof. reflexivity. Qed.

Lemma bind_lift_ok (a : A) k s : bind (lift (Ok a)) k s = k a s.
Proof. reflexivity. Qed.

Lemma bind_lift_raise (e : PyExc) k s : bind (lift (Raise e)) k s = (Raise e, s).
Proof. reflexivity. Qed.

Lemma bind_get (k : S -> M S B) s : bind get k s = k s s.
Proof. reflexivity. Qed.

Lemma bind_modify (f : S -> S) (k : unit -> M S B) s :
  bind (modify f) k s = k tt (f s).
Proof. reflexivity. Qed.

Lemma bind_bind {C} (m : M S A) k (k' : B -> M S C) s :
  bind (bind m k) k' s = bind m (fun a => bind (k a) k') s.
Proof. unfold bind. destruct (m s) as [[a|e] s']; reflexivity. Qed.

Lemma bind_run (m : M S A) k s :
  bind m k s = match m s with
               | (Ok a, s') => k a s'
               | (Raise e, s') => (Raise e, s')
               end.
Proof. reflexivity. Qed.

End Steps.

Lemma bind_if {S A B} (c : bool) (m1 m2 : M S A) (k : A -> M S B) s :
  bind (if c then m1 else m2) k s = if c then bind m1 k s else bind m2 k s.
Proof. destruct c; reflexivity. Qed.

Create Rewrite HintDb py.
#[local] Hint Rewrite @bind_bind @bind_ret @bind_throw @bind_lift_ok
  @bind_lift_raise @bind_get @bind_modify : py.

(** ** What [change_leadoff] does *)

Section ChangeLeadoff.
Import ImpedanceCheck.
Variable env : Env.

Lemma dict_get_Some {V} (d : gmap string V) (k : string) (v : V) :
  d !! k = Some v -> dict_get d k = Ok v.
Proof. intros H. unfold dict_get. rewrite H. reflexivity. Qed.

Lemma dict_get_None {V} (d : gmap string V) (k : string) :
  d !! k = None -> dict_get d k = Raise (key_error k).
Proof. intros H. unfold dict_get. rewrite H. reflexivity. Qed.

Lemma IMP_CFG_fields : has_fields IMP_CFG 0 0 1 0 0.
Proof. repeat split; reflexivity. Qed.

Lemma STREAM_CFG_DEFAULT_fields : has_fields STREAM_CFG_DEFAULT 6 0 1 1 0.
Proof. repeat split; reflexivity. Qed.

(** Enabling: the current configuration goes to the saved slot, the
    impedance configuration becomes current, and the command is sent. *)
Lemma change_leadoff_on_eq (ch : Z) (w : World) (cur : Cfg) :
  1 <= ch <= Z.of_nat (length (_ch_cfg (self w))) ->
  length (_ch_last_cfg (self w)) = length (_ch_cfg (self w)) ->
  _ch_cfg (self w) !! Z.to_nat (ch - 1) = Some cur ->
  change_leadoff env ch true w
  = leadoff_send env ch (leadoff_cmd ch true 0 0 1 0 0)
      (set_ch_cfg (<[Z.to_nat (ch - 1) := IMP_CFG]> (_ch_cfg (self w)))
         (set_ch_last_cfg
            (<[Z.to_nat (ch - 1) := Some cur]> (_ch_last_cfg (self w))) w)).
Proof.
  intros Hch Hlen Hcur. unfold change_leadoff. cbv iota.
  autorewrite with py.
  rewrite (py_getitem_nonneg _ (ch - 1) cur) by (auto; lia).
  autorewrite with py.
  rewrite py_setitem_nonneg by lia. autorewrite with py.
  rewrite py_setitem_nonneg by (cbn; lia). autorewrite with py.
  rewrite (py_getitem_nonneg _ (ch - 1) IMP_CFG)
    by (try lia; cbn; apply list_lookup_insert_eq; lia).
  autorewrite with py.
  change (dict_get IMP_CFG "gain") with (@Ok Z 0).
  change (dict_get IMP_CFG "input_type") with (@Ok Z 0).
  change (dict_get IMP_CFG "bias") with (@Ok Z 1).
  change (dict_get IMP_CFG "srb2") with (@Ok Z 0).
  change (dict_get IMP_CFG "srb1") with (@Ok Z 0).
  autorewrite with py. reflexivity.
Qed.

(** Disabling with a populated saved slot: the saved configuration
    becomes current again and the slot is emptied. *)
Lemma change_leadoff_off_saved_eq (ch : Z) (w : World) (c : Cfg)
    (gain input_type bias srb2 srb1 : Z) :
  1 <= ch <= Z.of_nat (length (_ch_cfg (self w))) ->
  length (_ch_last_cfg (self w)) = length (_ch_cfg (self w)) ->
  _ch_last_cfg (self w) !! Z.to_nat (ch - 1) = Some (Some c) ->
  has_fields c gain input_type bias srb2 srb1 ->
  change_leadoff env ch false w
  = leadoff_send env ch (leadoff_cmd ch false gain input_type bias srb2 srb1)
      (set_ch_last_cfg (<[Z.to_nat (ch - 1) := None]> (_ch_last_cfg (self w)))
         (set_ch_cfg (<[Z.to_nat (ch - 1) := c]> (_ch_cfg (self w))) w)).
Proof.
  intros Hch Hlen Hsaved (Hg & Hi & Hb & H2 & H1). unfold change_leadoff. cbv iota.
  autorewrite with py.
  rewrite (py_getitem_nonneg _ (ch - 1) (Some c)) by (auto; lia).
  autorewrite with py.
  rewrite py_setitem_nonneg by lia. autorewrite with py.
  rewrite py_setitem_nonneg by (cbn; lia). autorewrite with py.
  rewrite (py_getitem_nonneg _ (ch - 1) c)
    by (try lia; cbn; apply list_lookup_insert_eq; lia).
  autorewrite with py.
  rewrite (dict_get_Some _ _ _ Hg), (dict_get_Some _ _ _ Hi),
    (dict_get_Some _ _ _ Hb), (dict_get_Some _ _ _ H2), (dict_get_Some _ _ _ H1).
  autorewrite with py. reflexivity.
Qed.

(** Disabling with an empty saved slot: the streaming default becomes
    current. *)
Lemma change_leadoff_off_none_eq (ch : Z) (w : World) :
  1 <= ch <= Z.of_nat (length (_ch_cfg (self w))) ->
  length (_ch_last_cfg (self w)) = length (_ch_cfg (self w)) ->
  _ch_last_cfg (self w) !! Z.to_nat (ch - 1) = Some None ->
  change_leadoff env ch false w
  = leadoff_send env ch (leadoff_cmd ch false 6 0 1 1 0)
      (set_ch_cfg (<[Z.to_nat (ch - 1) := STREAM_CFG_DEFAULT]> (_ch_cfg (self w))) w).
Proof.
  intros Hch Hlen Hsaved. unfold change_leadoff. cbv iota.
  autorewrite with py.
  rewrite (py_getitem_nonneg _ (ch - 1) None) by (auto; lia).
  autorewrite with py.
  rewrite py_setitem_nonneg by lia. autorewrite with py.
  rewrite (py_getitem_nonneg _ (ch - 1) STREAM_CFG_DEFAULT)
    by (try lia; cbn; apply list_lookup_insert_eq; lia).
  autorewrite with py.
  change (dict_get STREAM_CFG_DEFAULT "gain") with (@Ok Z 6).
  change (dict_get STREAM_CFG_DEFAULT "input_type") with (@Ok Z 0).
  change (dict_get STREAM_CFG_DEFAULT "bias") with (@Ok Z 1).
  change (dict_get STREAM_CFG_DEFAULT "srb2") with (@Ok Z 1).
  change (dict_get STREAM_CFG_DEFAULT "srb1") with (@Ok Z 0).
  autorewrite with py. reflexivity.
Qed.

(** Sending leaves the attributes of the object alone. *)
Lemma leadoff_send_self (ch : Z) (cmd : string) (w : World) :
  self (snd (leadoff_send env ch cmd w)) = self w.
Proof.
  unfold leadoff_send, bind, get, try_except, on_board, io, board_config_board,
    print, sleep, emit, modify, throw.
  destruct (board (self w)); cbn;
    [destruct (config_reply env (trace w) cmd); cbn|];
    repeat (case_match; simplify_eq; cbn in *); reflexivity.
Qed.

(** Whatever the configuration saved, disabling puts it back and empties
    the slot, even when the call then fails to build or send its command. *)
Lemma change_leadoff_off_saved_self (ch : Z) (w : World) (c : Cfg) :
  1 <= ch <= Z.of_nat (length (_ch_cfg (self w))) ->
  length (_ch_last_cfg (self w)) = length (_ch_cfg (self w)) ->
  _ch_last_cfg (self w) !! Z.to_nat (ch - 1) = Some (Some c) ->
  self (snd (change_leadoff env ch false w))
  = self (set_ch_last_cfg (<[Z.to_nat (ch - 1) := None]> (_ch_last_cfg (self w)))
            (set_ch_cfg (<[Z.to_nat (ch - 1) := c]> (_ch_cfg (self w))) w)).
Proof.
  intros Hch Hlen Hsaved. unfold change_leadoff. cbv iota.
  autorewrite with py.
  rewrite (py_getitem_nonneg _ (ch - 1) (Some c)) by (auto; lia).
  autorewrite with py.
  rewrite py_setitem_nonneg by lia. autorewrite with py.
  rewrite py_setitem_nonneg by (cbn; lia). autorewrite with py.
  rewrite (py_getitem_nonneg _ (ch - 1) c)
    by (try lia; cbn; apply list_lookup_insert_eq; lia).
  autorewrite with py.
  repeat match goal with
         | |- context [bind (lift (dict_get ?d ?k)) _ _] =>
             destruct (dict_get d k); autorewrite with py; [|reflexivity]
         end.
  match goal with
  | |- self (snd (?m ?w0)) = _ =>
      change (m w0) with (leadoff_send env ch
        (build_channel_settings_cmd ch a a0 a1 a2 a3 0 +:+
         build_impedance_cmd ch false true) w0)
  end.
  rewrite leadoff_send_self. reflexivity.
Qed.

(** What sending adds to the trace, and when it succeeds. *)
Lemma leadoff_send_trace (ch : Z) (cmd : string) (w : World) :
  match board (self w) with
  | None => leadoff_send env ch cmd w = (Raise (none_has_no "config_board"), w)
  | Some _ =>
      exists r tl, leadoff_send env ch cmd w
                   = (r, mkWorld (self w) (trace w ++ EConfig cmd :: tl))
                   /\ cmds tl = []
                   /\ (is_ok (config_reply env (trace w) cmd) = true
                       \/ raised (config_reply env (trace w) cmd)
                          = Some UnicodeDecodeError -> r = Ok tt)
  end.
Proof.
  unfold leadoff_send, bind, get, try_except, on_board, io, board_config_board,
    print, sleep, emit, modify, throw, is_exc.
  destruct (board (self w)); cbn; [|destruct w; reflexivity].
  destruct (config_reply env (trace w) cmd) as [resp|e]; cbn.
  - eexists _, _. rewrite <- !app_assoc. cbn. repeat split.
  - case_bool_decide as He; cbn.
    + eexists _, _. rewrite <- !app_assoc. cbn. repeat split.
    + eexists _, []. repeat split. intros [[=]|[=]]. congruence.
Qed.

End ChangeLeadoff.

(** ** The channel state tracker *)

Section Tracker.
Import ImpedanceCheck.

(** C1. Round trip: for a channel 1..8 and any tables of eight entries,
    enabling and then disabling lead-off puts the channel's current
    configuration back as it was before the enable and leaves its saved
    slot empty; when the slot was empty to begin with, the whole object is
    as before.  Both calls return normally when the session accepts the
    commands and the configuration has its five fields. *)
Theorem leadoff_round_trip (env : Env) (ch : Z) (w : World) (cur : Cfg) :
  1 <= ch <= 8 ->
  length (_ch_cfg (self w)) = 8%nat ->
  length (_ch_last_cfg (self w)) = 8%nat ->
  _ch_cfg (self w) !! Z.to_nat (ch - 1) = Some cur ->
  let w1 := snd (change_leadoff env ch true w) in
  let w2 := snd (change_leadoff env ch false w1) in
  _ch_cfg (self w2) = _ch_cfg (self w) /\
  _ch_last_cfg (self w2) = <[Z.to_nat (ch - 1) := None]> (_ch_last_cfg (self w)) /\
  (_ch_last_cfg (self w) !! Z.to_nat (ch - 1) = Some None -> self w2 = self w) /\
  (forall gain input_type bias srb2 srb1,
      accepts_commands env -> is_Some (board (self w)) ->
      has_fields cur gain input_type bias srb2 srb1 ->
      fst (change_leadoff env ch true w) = Ok tt /\
      fst (change_leadoff env ch false w1) = Ok tt).
Proof.
  intros Hch Hc Hl Hcur w1 w2.
  assert (Hs1 : self w1
    = self (set_ch_cfg (<[Z.to_nat (ch - 1) := IMP_CFG]> (_ch_cfg (self w)))
         (set_ch_last_cfg
            (<[Z.to_nat (ch - 1) := Some cur]> (_ch_last_cfg (self w))) w))).
  { unfold w1. rewrite (change_leadoff_on_eq env ch w cur) by (auto; lia).
    apply leadoff_send_self. }
  assert (Hlen1 : length (_ch_cfg (self w1)) = 8%nat)
    by (rewrite Hs1; cbn; rewrite length_insert; auto).
  assert (Hlast1 : length (_ch_last_cfg (self w1)) = 8%nat)
    by (rewrite Hs1; cbn; rewrite length_insert; auto).
  assert (Hsaved1 : _ch_last_cfg (self w1) !! Z.to_nat (ch - 1) = Some (Some cur))
    by (rewrite Hs1; cbn; apply list_lookup_insert_eq; lia).
  assert (Hs2 : self w2
    = self (set_ch_last_cfg (<[Z.to_nat (ch - 1) := None]> (_ch_last_cfg (self w1)))
         (set_ch_cfg (<[Z.to_nat (ch - 1) := cur]> (_ch_cfg (self w1))) w1))).
  { unfold w2. apply change_leadoff_off_saved_self; auto; lia. }
  assert (Hcfg2 : _ch_cfg (self w2) = _ch_cfg (self w)).
  { rewrite Hs2; cbn. rewrite Hs1; cbn.
    rewrite list_insert_insert_eq. apply list_insert_id. exact Hcur. }
  assert (Hlast2 : _ch_last_cfg (self w2)
                   = <[Z.to_nat (ch - 1) := None]> (_ch_last_cfg (self w))).
  { rewrite Hs2; cbn. rewrite Hs1; cbn. apply list_insert_insert_eq. }
  split; [exact Hcfg2|]. split; [exact Hlast2|]. split.
  - intros Hnone. rewrite (list_insert_id _ _ _ Hnone) in Hlast2.
    revert Hcfg2 Hlast2. rewrite Hs2; cbn. rewrite Hs1; cbn.
    destruct (self w); cbn. intros -> ->. reflexivity.
  - intros g i b s2 s1 Hacc [bs Hb] Hf. split.
    + rewrite (change_leadoff_on_eq env ch w cur) by (auto; lia).
      match goal with |- fst (leadoff_send _ _ ?c ?w0) = _ =>
        pose proof (leadoff_send_trace env ch c w0) as Ht;
        pose proof (Hacc (trace w0) c) as Ha end.
      cbn [self set_ch_cfg set_ch_last_cfg board] in Ht. rewrite Hb in Ht.
      destruct Ht as (r & tl & -> & _ & Hr). cbn. apply Hr.
      destruct (config_reply env _ _); cbn in *; [left|right]; congruence.
    + assert (Hb1 : board (self w1) = Some bs) by (rewrite Hs1; exact Hb).
      rewrite (change_leadoff_off_saved_eq env ch w1 cur g i b s2 s1)
        by (auto; lia).
      match goal with |- fst (leadoff_send _ _ ?c ?w0) = _ =>
        pose proof (leadoff_send_trace env ch c w0) as Ht;
        pose proof (Hacc (trace w0) c) as Ha end.
      cbn [self set_ch_cfg set_ch_last_cfg board] in Ht. rewrite Hb1 in Ht.
      destruct Ht as (r & tl & -> & _ & Hr). cbn. apply Hr.
      destruct (config_reply env _ _); cbn in *; [left|right]; congruence.
Qed.

Lemma leadoff_round_trip_witness :
  1 <= 1 <= 8 /\
  length (_ch_cfg (self demo_world)) = 8%nat /\
  length (_ch_last_cfg (self demo_world)) = 8%nat /\
  _ch_cfg (self demo_world) !! Z.to_nat (1 - 1) = Some STREAM_CFG_DEFAULT /\
  let w1 := snd (change_leadoff demo_env 1 true demo_world) in
  let w2 := snd (change_leadoff demo_env 1 false w1) in
  _ch_cfg (self w2) = _ch_cfg (self demo_world) /\
  self w2 = self demo_world /\
  fst (change_leadoff demo_env 1 true demo_world) = Ok tt /\
  fst (change_leadoff demo_env 1 false w1) = Ok tt.
Proof.
  assert (H1 : 1 <= 1 <= 8) by lia.
  assert (H2 : length (_ch_cfg (self demo_world)) = 8%nat) by reflexivity.
  assert (H3 : length (_ch_last_cfg (self demo_world)) = 8%nat) by reflexivity.
  assert (H4 : _ch_cfg (self demo_world) !! Z.to_nat (1 - 1)
               = Some STREAM_CFG_DEFAULT) by reflexivity.
  pose proof (leadoff_round_trip demo_env 1 demo_world STREAM_CFG_DEFAULT
                H1 H2 H3 H4) as (Ha & _ & Hb & Hc).
  split; [exact H1|]. split; [exact H2|]. split; [exact H3|].
  split; [exact H4|]. intros w1 w2.
  split; [exact Ha|]. split; [apply Hb; reflexivity|].
  apply (Hc 6 0 1 1 0); [intros t c; exact I | eexists; reflexivity
                         | repeat split; reflexivity].
Defined.

(** C3, as the code behaves.  A second enable on a channel whose saved
    slot is populated is not refused: it overwrites the slot with the
    channel's current configuration, makes the impedance configuration
    current, and returns normally when the session accepts the command. *)
Theorem second_enable_overwrites (env : Env) (ch : Z) (w : World)
    (cur saved : Cfg) :
  1 <= ch <= 8 ->
  length (_ch_cfg (self w)) = 8%nat ->
  length (_ch_last_cfg (self w)) = 8%nat ->
  _ch_cfg (self w) !! Z.to_nat (ch - 1) = Some cur ->
  _ch_last_cfg (self w) !! Z.to_nat (ch - 1) = Some (Some saved) ->
  let w' := snd (change_leadoff env ch true w) in
  _ch_last_cfg (self w') !! Z.to_nat (ch - 1) = Some (Some cur) /\
  _ch_cfg (self w') !! Z.to_nat (ch - 1) = Some IMP_CFG /\
  (accepts_commands env -> is_Some (board (self w)) ->
   fst (change_leadoff env ch true w) = Ok tt).
Proof.
  intros Hch Hc Hl Hcur Hsaved w'.
  assert (Hs : self w'
    = self (set_ch_cfg (<[Z.to_nat (ch - 1) := IMP_CFG]> (_ch_cfg (self w)))
         (set_ch_last_cfg
            (<[Z.to_nat (ch - 1) := Some cur]> (_ch_last_cfg (self w))) w))).
  { unfold w'. rewrite (change_leadoff_on_eq env ch w cur) by (auto; lia).
    apply leadoff_send_self. }
  rewrite Hs; cbn. split; [apply list_lookup_insert_eq; lia|].
  split; [apply list_lookup_insert_eq; lia|].
  intros Hacc [bs Hb].
  rewrite (change_leadoff_on_eq env ch w cur) by (auto; lia).
  match goal with |- fst (leadoff_send _ _ ?c ?w0) = _ =>
    pose proof (leadoff_send_trace env ch c w0) as Ht;
    pose proof (Hacc (trace w0) c) as Ha end.
  cbn [self set_ch_cfg set_ch_last_cfg board] in Ht. rewrite Hb in Ht.
  destruct Ht as (r & tl & -> & _ & Hr). cbn. apply Hr.
  destruct (config_reply env _ _); cbn in *; [left|right]; congruence.
Qed.

(** The world after a first enable of channel 1. *)
Lemma second_enable_overwrites_witness :
  let w := snd (change_leadoff demo_env 1 true demo_world) in
  _ch_last_cfg (self w) !! Z.to_nat (1 - 1) = Some (Some STREAM_CFG_DEFAULT) /\
  let w' := snd (change_leadoff demo_env 1 true w) in
  _ch_last_cfg (self w') !! Z.to_nat (1 - 1) = Some (Some IMP_CFG) /\
  _ch_cfg (self w') !! Z.to_nat (1 - 1) = Some IMP_CFG /\
  fst (change_leadoff demo_env 1 true w) = Ok tt.
Proof.
  intros w.
  assert (H1 : 1 <= 1 <= 8) by lia.
  assert (H2 : length (_ch_cfg (self w)) = 8%nat) by reflexivity.
  assert (H3 : length (_ch_last_cfg (self w)) = 8%nat) by reflexivity.
  assert (H4 : _ch_cfg (self w) !! Z.to_nat (1 - 1) = Some IMP_CFG)
    by reflexivity.
  assert (H5 : _ch_last_cfg (self w) !! Z.to_nat (1 - 1)
               = Some (Some STREAM_CFG_DEFAULT)) by reflexivity.
  pose proof (second_enable_overwrites demo_env 1 w IMP_CFG STREAM_CFG_DEFAULT
                H1 H2 H3 H4 H5) as (Ha & Hb & Hc).
  split; [exact H5|]. intros w'. split; [exact Ha|]. split; [exact Hb|].
  apply Hc; [intros t c; exact I | eexists; reflexivity].
Defined.

(** C3, as the claim states it, fails: after a first enable of channel 1
    on a fresh object, a second enable returns normally and replaces the
    saved streaming default by the impedance configuration. *)
Lemma second_enable_not_refused :
  let w := snd (change_leadoff demo_env 1 true demo_world) in
  _ch_last_cfg (self w) !! 0%nat = Some (Some STREAM_CFG_DEFAULT) /\
  fst (change_leadoff demo_env 1 true w) = Ok tt /\
  _ch_last_cfg (self (snd (change_leadoff demo_env 1 true w))) !! 0%nat
  = Some (Some IMP_CFG) /\
  self (snd (change_leadoff demo_env 1 true w)) <> self w.
Proof.
  vm_compute. repeat split. intros H. discriminate H.
Qed.

(** C10. Two consecutive enables followed by one disable leave the
    impedance configuration current and the saved slot empty: the tables
    reached do not depend on the configuration that was current before
    the first enable, which is lost. *)
Theorem double_enable_loses_original (env : Env) (ch : Z) (w : World) (cur : Cfg) :
  1 <= ch <= 8 ->
  length (_ch_cfg (self w)) = 8%nat ->
  length (_ch_last_cfg (self w)) = 8%nat ->
  _ch_cfg (self w) !! Z.to_nat (ch - 1) = Some cur ->
  let w1 := snd (change_leadoff env ch true w) in
  let w2 := snd (change_leadoff env ch true w1) in
  let w3 := snd (change_leadoff env ch false w2) in
  _ch_last_cfg (self w2) !! Z.to_nat (ch - 1) = Some (Some IMP_CFG) /\
  _ch_cfg (self w3) = <[Z.to_nat (ch - 1) := IMP_CFG]> (_ch_cfg (self w)) /\
  _ch_last_cfg (self w3) = <[Z.to_nat (ch - 1) := None]> (_ch_last_cfg (self w)).
Proof.
  intros Hch Hc Hl Hcur w1 w2 w3.
  assert (Hs1 : self w1
    = self (set_ch_cfg (<[Z.to_nat (ch - 1) := IMP_CFG]> (_ch_cfg (self w)))
         (set_ch_last_cfg
            (<[Z.to_nat (ch - 1) := Some cur]> (_ch_last_cfg (self w))) w))).
  { unfold w1. rewrite (change_leadoff_on_eq env ch w cur) by (auto; lia).
    apply leadoff_send_self. }
  assert (Hlen1 : length (_ch_cfg (self w1)) = 8%nat)
    by (rewrite Hs1; cbn; rewrite length_insert; auto).
  assert (Hlast1 : length (_ch_last_cfg (self w1)) = 8%nat)
    by (rewrite Hs1; cbn; rewrite length_insert; auto).
  assert (Hcur1 : _ch_cfg (self w1) !! Z.to_nat (ch - 1) = Some IMP_CFG)
    by (rewrite Hs1; cbn; apply list_lookup_insert_eq; lia).
  assert (Hs2 : self w2
    = self (set_ch_cfg (<[Z.to_nat (ch - 1) := IMP_CFG]> (_ch_cfg (self w1)))
         (set_ch_last_cfg
            (<[Z.to_nat (ch - 1) := Some IMP_CFG]> (_ch_last_cfg (self w1))) w1))).
  { unfold w2. rewrite (change_leadoff_on_eq env ch w1 IMP_CFG) by (auto; lia).
    apply leadoff_send_self. }
  assert (Hlen2 : length (_ch_cfg (self w2)) = 8%nat)
    by (rewrite Hs2; cbn; rewrite length_insert; auto).
  assert (Hlast2 : length (_ch_last_cfg (self w2)) = 8%nat)
    by (rewrite Hs2; cbn; rewrite length_insert; auto).
  assert (Hsaved2 : _ch_last_cfg (self w2) !! Z.to_nat (ch - 1)
                    = Some (Some IMP_CFG))
    by (rewrite Hs2; cbn; apply list_lookup_insert_eq; lia).
  assert (Hs3 : self w3
    = self (set_ch_last_cfg (<[Z.to_nat (ch - 1) := None]> (_ch_last_cfg (self w2)))
         (set_ch_cfg (<[Z.to_nat (ch - 1) := IMP_CFG]> (_ch_cfg (self w2))) w2))).
  { unfold w3. apply change_leadoff_off_saved_self; auto; lia. }
  split; [exact Hsaved2|].
  rewrite Hs3; cbn. rewrite Hs2; cbn. rewrite Hs1; cbn.
  rewrite !list_insert_insert_eq. split; reflexivity.
Qed.

Lemma double_enable_loses_original_witness :
  let w1 := snd (change_leadoff demo_env 1 true demo_world) in
  let w2 := snd (change_leadoff demo_env 1 true w1) in
  let w3 := snd (change_leadoff demo_env 1 false w2) in
  _ch_cfg (self demo_world) !! 0%nat = Some STREAM_CFG_DEFAULT /\
  _ch_cfg (self w3) = <[0%nat := IMP_CFG]> (_ch_cfg (self demo_world)) /\
  _ch_cfg (self w3) !! 0%nat = Some IMP_CFG.
Proof.
  intros w1 w2 w3.
  assert (H1 : 1 <= 1 <= 8) by lia.
  assert (H2 : length (_ch_cfg (self demo_world)) = 8%nat) by reflexivity.
  assert (H3 : length (_ch_last_cfg (self demo_world)) = 8%nat) by reflexivity.
  assert (H4 : _ch_cfg (self demo_world) !! Z.to_nat (1 - 1)
               = Some STREAM_CFG_DEFAULT) by reflexivity.
  pose proof (double_enable_loses_original demo_env 1 demo_world
                STREAM_CFG_DEFAULT H1 H2 H3 H4) as (_ & Ha & _).
  split; [exact H4|]. split; [exact Ha|].
  fold w1 w2 w3 in Ha. rewrite Ha. reflexivity.
Defined.

End Tracker.

(** ** The command builders *)

Section Commands.
Import ImpedanceCheck.

Lemma fmt_digit (n : Z) :
  0 <= n <= 9 -> exists c : ascii, fmt n = String c EmptyString.
Proof.
  intros H. rewrite <- (Z2Nat.id n) by lia.
  assert (Hk : (Z.to_nat n < 10)%nat) by lia.
  revert Hk. generalize (Z.to_nat n) as k. intros k Hk.
  do 10 (destruct k as [|k]; [eexists; vm_compute; reflexivity|]).
  lia.
Qed.

Lemma string_app_assoc (s1 s2 s3 : string) :
  (s1 +:+ s2) +:+ s3 = s1 +:+ s2 +:+ s3.
Proof.
  induction s1 as [|c s1 IH]; [reflexivity|].
  change (String c ((s1 +:+ s2) +:+ s3) = String c (s1 +:+ s2 +:+ s3)).
  rewrite IH. reflexivity.
Qed.

(** C5, as the code behaves.  [build_channel_settings_cmd] checks
    nothing: for all integer arguments it returns a string that starts
    with [x], carries the seven numbers in decimal, and ends with [X];
    when every argument is a single digit the string has nine
    characters. *)
Theorem build_channel_settings_cmd_total
    (ch gain input_type bias srb2 srb1 power_down : Z) :
  let cmd := build_channel_settings_cmd ch gain input_type bias srb2 srb1
               power_down in
  cmd = "x" +:+ (fmt ch +:+ fmt power_down +:+ fmt gain +:+ fmt input_type
                   +:+ fmt bias +:+ fmt srb2 +:+ fmt srb1) +:+ "X" /\
  (0 <= ch <= 9 -> 0 <= gain <= 9 -> 0 <= input_type <= 9 -> 0 <= bias <= 9 ->
   0 <= srb2 <= 9 -> 0 <= srb1 <= 9 -> 0 <= power_down <= 9 ->
   String.length cmd = 9%nat).
Proof.
  intros cmd. unfold cmd, build_channel_settings_cmd. split.
  - rewrite !string_app_assoc. reflexivity.
  - intros H1 H2 H3 H4 H5 H6 H7.
    destruct (fmt_digit ch H1) as [c1 ->].
    destruct (fmt_digit gain H2) as [c2 ->].
    destruct (fmt_digit input_type H3) as [c3 ->].
    destruct (fmt_digit bias H4) as [c4 ->].
    destruct (fmt_digit srb2 H5) as [c5 ->].
    destruct (fmt_digit srb1 H6) as [c6 ->].
    destruct (fmt_digit power_down H7) as [c7 ->].
    reflexivity.
Qed.

Lemma build_channel_settings_cmd_total_witness :
  0 <= 1 <= 9 /\ 0 <= 6 <= 9 /\ 0 <= 0 <= 9 /\
  String.length (build_channel_settings_cmd 1 6 0 1 1 0 0) = 9%nat.
Proof.
  assert (H1 : 0 <= 1 <= 9) by lia.
  assert (H6 : 0 <= 6 <= 9) by lia.
  assert (H0 : 0 <= 0 <= 9) by lia.
  pose proof (build_channel_settings_cmd_total 1 6 0 1 1 0 0) as (_ & H).
  split; [exact H1|]. split; [exact H6|]. split; [exact H0|].
  apply H; assumption.
Defined.

(** C5, as the claim states it, fails: channel 0, channel 9 and gain 7
    are not refused, each gives a command string. *)
Lemma build_channel_settings_cmd_accepts_invalid :
  build_channel_settings_cmd 0 6 0 1 1 0 0 = "x0060110X" /\
  build_channel_settings_cmd 9 6 0 1 1 0 0 = "x9060110X" /\
  build_channel_settings_cmd 1 7 0 1 1 0 0 = "x1070110X" /\
  build_channel_settings_cmd 1 6 0 2 1 0 0 = "x1060210X".
Proof. repeat split; vm_compute; reflexivity. Qed.

End Commands.

(** ** The impedance formula *)

Section Formula.
Import ImpedanceCheck.

Lemma sqrt2_bounds : (1.414212 < sqrt 2 < 1.414218)%R.
Proof.
  assert (H0 : (0 <= sqrt 2)%R) by apply sqrt_pos.
  assert (H2 : (sqrt 2 * sqrt 2 = 2)%R) by (apply sqrt_sqrt; lra).
  split; nra.
Qed.

(** C4. [calc_impedance_from_vrms] is the formula
    [max(sqrt(2) * (v * 1e-6) / 6.0e-9 - 2200, 0)], in binary64 as the
    code computes it and in exact arithmetic; both files agree; at 10 µV
    the result lies between 157.02 and 157.03 ohm, at 0 µV it is 0. *)
Theorem calc_impedance_from_vrms_formula :
  (forall v : float,
      calc_impedance_from_vrms v
      = py_max (PrimFloat.sqrt 2 * (v * 1e-6) / 6.0e-9 - 2200)%float 0%float /\
      Script.calc_impedance_from_vrms v = calc_impedance_from_vrms v) /\
  ((157.02 <=? calc_impedance_from_vrms 10)%float = true /\
   (calc_impedance_from_vrms 10 <=? 157.03)%float = true /\
   calc_impedance_from_vrms 0 = 0%float) /\
  (forall v : R,
      Exact.calc_impedance_from_vrms v
      = Rmax (sqrt 2 * (v * (1 / 1000000)) / (6 / 1000000000) - 2200) 0) /\
  (157.02 < Exact.calc_impedance_from_vrms 10 < 157.03)%R /\
  Exact.calc_impedance_from_vrms 0 = 0%R.
Proof.
  split; [intros v; split; reflexivity|].
  split; [repeat split; vm_compute; reflexivity|].
  split; [intros v; reflexivity|].
  pose proof sqrt2_bounds as Hs.
  unfold Exact.calc_impedance_from_vrms, Exact.I_DRIVE, Exact.SERIES_R. split.
  - rewrite Rmax_left by lra. lra.
  - rewrite Rmax_right by lra. reflexivity.
Qed.





End Formula.

(** ** The two RMS estimators *)

Section Estimators.


Lemma py_last_n_all {A} (x : list A) (n : Z) :
  n = 0 \/ Z.of_nat (length x) <= n -> py_last_n x n = x.
Proof.
  intros H. unfold py_last_n, py_slice_from. case_decide.
  - replace (Z.to_nat (Z.max 0 (Z.of_nat (length x) + - n))) with 0%nat by lia.
    reflexivity.
  - replace (Z.to_nat (Z.min (- n) (Z.of_nat (length x)))) with 0%nat by lia.
    reflexivity.
Qed.


Lemma Rsum_squares_nonneg (l : list R) :
  (0 <= Rsum (map (fun v => (v * v)%R) l))%R.
Proof.
  induction l as [|a l IH]; [cbn; lra|].
  change (0 <= a * a + Rsum (map (fun v => (v * v)%R) l))%R.
  pose proof (Rle_0_sqr a) as Ha. unfold Rsqr in Ha. lra.
Qed.






End Estimators.

(** ** Commands and lead-off currents along a trace *)

Section Traces.

Lemma cmds_app (t1 t2 : Trace) : cmds (t1 ++ t2) = cmds t1 ++ cmds t2.
Proof.
  induction t1 as [|e t1 IH]; [reflexivity|].
  destruct e; cbn; rewrite IH; reflexivity.
Qed.

Lemma cmds_prefix (p t : Trace) : p `prefix_of` t -> cmds p `prefix_of` cmds t.
Proof. intros [k ->]. rewrite cmds_app. eexists. reflexivity. Qed.

Lemma leadoff_from_app (chans : list ascii) (cs1 cs2 : list string) :
  leadoff_from chans (cs1 ++ cs2) = leadoff_from (leadoff_from chans cs1) cs2.
Proof. unfold leadoff_from. apply fold_left_app. Qed.

Lemma prefix_of_app_cases {A} (q l1 l2 : list A) :
  q `prefix_of` l1 ++ l2 ->
  q `prefix_of` l1 \/ exists q', q = l1 ++ q' /\ q' `prefix_of` l2.
Proof.
  revert q. induction l1 as [|a l1 IH]; intros q Hq.
  - right. exists q. split; [reflexivity|exact Hq].
  - destruct q as [|b q]; [left; apply prefix_nil|].
    cbn in Hq. pose proof (prefix_cons_inv_1 _ _ _ _ Hq) as ->.
    apply prefix_cons_inv_2 in Hq. destruct (IH q Hq) as [H|(q' & -> & H)].
    + left. apply prefix_cons. exact H.
    + right. exists q'. split; [reflexivity|exact H].
Qed.

(** Quiet cycles one after the other, then a quiet tail: never more than
    one lead-off current on, and none at the end of the cycles. *)
Lemma quiet_cycles (cycles : list (list string)) :
  Forall quiet_cycle cycles ->
  leadoff_from [] (concat cycles) = [] /\
  forall tail, (forall q, q `prefix_of` tail -> (length (leadoff_from [] q) <= 1)%nat) ->
    forall q, q `prefix_of` concat cycles ++ tail ->
              (length (leadoff_from [] q) <= 1)%nat.
Proof.
  induction 1 as [|cyc cycles [Hend Hpre] _ [IHend IH]].
  - split; [reflexivity|]. intros tail Htail q Hq. apply Htail. exact Hq.
  - split.
    + cbn [concat]. rewrite leadoff_from_app, Hend. exact IHend.
    + intros tail Htail q Hq. cbn [concat] in Hq. rewrite <- app_assoc in Hq.
      destruct (prefix_of_app_cases _ _ _ Hq) as [H|(q' & -> & H)].
      * apply Hpre. exact H.
      * rewrite leadoff_from_app, Hend. apply (IH tail Htail). exact H.
Qed.

Lemma prefixes_of_three {A} (a b c : A) (q : list A) :
  q `prefix_of` [a; b; c] -> q = [] \/ q = [a] \/ q = [a; b] \/ q = [a; b; c].
Proof.
  intros [k Hk]. destruct q as [|x [|y [|z [|u q]]]]; cbn in Hk;
    simplify_eq; auto.
Qed.

Lemma channel_cases (ch : Z) (P : Z -> Prop) :
  1 <= ch <= 8 -> P 1 -> P 2 -> P 3 -> P 4 -> P 5 -> P 6 -> P 7 -> P 8 -> P ch.
Proof.
  intros H. rewrite <- (Z2Nat.id ch) by lia.
  assert (Hk : (1 <= Z.to_nat ch < 9)%nat) by lia.
  revert Hk. generalize (Z.to_nat ch) as k. intros k Hk.
  destruct k as [|k]; [lia|].
  do 8 (destruct k as [|k]; [intros; assumption|]). lia.
Qed.

Lemma script_cycle_quiet (ch : Z) : 1 <= ch <= 8 -> quiet_cycle (script_cycle ch).
Proof.
  intros H. pattern ch. apply (channel_cases ch); [exact H|..];
    (split; [vm_compute; reflexivity|];
     intros q Hq; apply prefixes_of_three in Hq;
     destruct Hq as [->|[->|[->| ->]]]; vm_compute; lia).
Qed.

Lemma class_cycle_quiet (ch : Z) : 1 <= ch <= 8 -> quiet_cycle (class_cycle ch).
Proof.
  intros H. pattern ch. apply (channel_cases ch); [exact H|..];
    (split; [vm_compute; reflexivity|];
     intros q Hq; apply prefixes_of_three in Hq;
     destruct Hq as [->|[->|[->| ->]]]; vm_compute; lia).
Qed.

Lemma reset_tail_quiet (q : list string) :
  q `prefix_of` ["d"] -> (length (leadoff_from [] q) <= 1)%nat.
Proof.
  intros [k Hk]. destruct q as [|x [|y q]]; cbn in Hk; simplify_eq;
    vm_compute; lia.
Qed.

(** A trace whose commands form a beginning of a sequence of quiet cycles
    (followed by a quiet tail) is exclusive. *)
Lemma exclusive_of_cycles (t : Trace) (cycles : list (list string))
    (tail : list string) :
  Forall quiet_cycle cycles ->
  (forall q, q `prefix_of` tail -> (length (leadoff_from [] q) <= 1)%nat) ->
  cmds t `prefix_of` concat cycles ++ tail ->
  exclusive t.
Proof.
  intros Hc Htail Ht p Hp. unfold leadoff_on, leadoff_after.
  change (length (leadoff_from [] (cmds p)) <= 1)%nat.
  apply (proj2 (quiet_cycles cycles Hc) tail Htail).
  etrans; [apply cmds_prefix; exact Hp | exact Ht].
Qed.

End Traces.

(** ** Rules for [runs] *)

Section RunsRules.
Context {S X : Type} (tr : S -> Trace) (st : S -> X).

Lemma runs_bind {A B} (m : M S A) (k : A -> M S B) (x x1 x2 : X)
    (f1 f2 : list string) :
  runs tr st m x f1 x1 ->
  (forall a, runs tr st (k a) x1 f2 x2) ->
  runs tr st (bind m k) x (f1 ++ f2) x2.
Proof.
  intros Hm Hk s Hs. destruct (Hm s Hs) as (tl1 & Ht1 & Hp1 & Hok1).
  unfold bind. destruct (m s) as [[a|e] s1] eqn:E; cbn in *.
  - destruct (Hok1 eq_refl) as [Hf1 Hx1].
    destruct (Hk a s1 Hx1) as (tl2 & Ht2 & Hp2 & Hok2).
    exists (tl1 ++ tl2). rewrite Ht2, Ht1, app_assoc, cmds_app, Hf1.
    split; [reflexivity|]. split; [apply prefix_app; exact Hp2|].
    intros Hok. destruct (Hok2 Hok) as [-> ->]. split; reflexivity.
  - exists tl1. split; [exact Ht1|]. split; [|discriminate].
    etrans; [exact Hp1|]. apply prefix_app_r. reflexivity.
Qed.

Lemma runs_bind_nil {A B} (m : M S A) (k : A -> M S B) (x x1 x2 : X)
    (f : list string) :
  runs tr st m x [] x1 ->
  (forall a, runs tr st (k a) x1 f x2) ->
  runs tr st (bind m k) x f x2.
Proof. intros Hm Hk. exact (runs_bind m k x x1 x2 [] f Hm Hk). Qed.

Lemma runs_bind_cons {A B} (m : M S A) (k : A -> M S B) (x x1 x2 : X)
    (c : string) (f : list string) :
  runs tr st m x [c] x1 ->
  (forall a, runs tr st (k a) x1 f x2) ->
  runs tr st (bind m k) x (c :: f) x2.
Proof. intros Hm Hk. exact (runs_bind m k x x1 x2 [c] f Hm Hk). Qed.

Lemma runs_ret {A} (a : A) (x : X) : runs tr st (ret a) x [] x.
Proof.
  intros s Hs. exists []. cbn. rewrite app_nil_r.
  split; [reflexivity|]. split; [reflexivity|]. intros _. split; auto.
Qed.

Lemma runs_lift {A} (r : Py A) (x : X) : runs tr st (lift r) x [] x.
Proof.
  intros s Hs. exists []. cbn. rewrite app_nil_r.
  split; [reflexivity|]. split; [reflexivity|]. intros _. split; auto.
Qed.

Lemma runs_throw {A} (e : PyExc) (x x' : X) (f : list string) :
  runs tr st (@throw S A e) x f x'.
Proof.
  intros s Hs. exists []. cbn. rewrite app_nil_r.
  split; [reflexivity|]. split; [apply prefix_nil|discriminate].
Qed.

Lemma runs_get {B} (k : S -> M S B) (x x' : X) (f : list string) :
  (forall s0, st s0 = x -> runs tr st (k s0) x f x') ->
  runs tr st (bind get k) x f x'.
Proof. intros Hk s Hs. exact (Hk s Hs s Hs). Qed.

Lemma runs_if {A} (c : bool) (m1 m2 : M S A) (x x' : X) (f : list string) :
  runs tr st m1 x f x' -> runs tr st m2 x f x' ->
  runs tr st (if c then m1 else m2) x f x'.
Proof. destruct c; auto. Qed.

End RunsRules.

(** ** The script's run *)

Section ScriptRun.
Variable env : Env.

Local Abbreviation sruns := (runs (fun t : Trace => t) (fun _ : Trace => tt)).

Lemma sruns_emit (e : Event) : sruns (emit e) tt (cmds [e]) tt.
Proof.
  intros t _. exists [e]. cbn. split; [reflexivity|].
  split; [reflexivity|]. intros _. split; reflexivity.
Qed.

Lemma sruns_sleep (secs : float) : sruns (sleep secs) tt [] tt.
Proof. exact (sruns_emit (ESleep secs)). Qed.

Lemma sruns_print (line : string) : sruns (print line) tt [] tt.
Proof. exact (sruns_emit (EPrint line)). Qed.

Lemma sruns_config (cmd : string) : sruns (board_config_board env cmd) tt [cmd] tt.
Proof.
  intros t _. exists [EConfig cmd]. cbn. split; [reflexivity|].
  split; [reflexivity|]. intros _. split; reflexivity.
Qed.

Lemma sruns_session (e : Event) :
  cmds [e] = [] -> sruns (board_session env e) tt [] tt.
Proof.
  intros He t _. exists [e]. cbn [board_session fst snd]. rewrite He.
  split; [reflexivity|]. split; [reflexivity|]. intros _. split; reflexivity.
Qed.

Lemma sruns_data : sruns (board_get_board_data env) tt [] tt.
Proof.
  intros t _. exists [EGetBoardData]. cbn. split; [reflexivity|].
  split; [reflexivity|]. intros _. split; reflexivity.
Qed.

Lemma ads_cmd_eq (ch : Z) :
  ((((((("x" +:+ fmt ch +:+ "0") +:+ "0") +:+ "0") +:+ "1") +:+ "0") +:+ "0")
     +:+ "X") = "x" +:+ fmt ch +:+ "000100X".
Proof.
  rewrite !string_app_assoc. reflexivity.
Qed.

Lemma sruns_set_ads (ch : Z) :
  sruns (Script.set_ads_to_impedance_on env ch) tt ["x" +:+ fmt ch +:+ "000100X"] tt.
Proof.
  unfold Script.set_ads_to_impedance_on. cbv zeta. rewrite ads_cmd_eq.
  apply runs_bind_cons with (x1 := tt); [apply sruns_config|]. intros _. apply sruns_sleep.
Qed.

Lemma sruns_send_leadoff (ch p n : Z) :
  sruns (Script.send_leadoff env ch p n) tt
    ["z" +:+ fmt ch +:+ fmt p +:+ fmt n +:+ "Z"] tt.
Proof.
  unfold Script.send_leadoff. cbv zeta.
  apply runs_bind_cons with (x1 := tt); [apply sruns_config|]. intros _. apply sruns_sleep.
Qed.

Lemma sruns_measure_channel (board_id fs ch : Z) :
  sruns (Script.measure_channel env board_id fs ch) tt (script_cycle ch) tt.
Proof.
  unfold Script.measure_channel, script_cycle.
  apply runs_bind_cons with (x1 := tt); [apply sruns_set_ads|]. intros _.
  apply runs_bind_cons with (x1 := tt); [apply (sruns_send_leadoff ch 0 1)|]. intros _.
  apply runs_bind_nil with (x1 := tt); [apply sruns_sleep|]. intros _.
  apply runs_bind_nil with (x1 := tt); [apply sruns_data|]. intros _.
  apply runs_bind_nil with (x1 := tt); [apply sruns_sleep|]. intros _.
  apply runs_bind_nil with (x1 := tt); [apply sruns_data|]. intros data.
  do 6 (apply runs_bind_nil with (x1 := tt); [apply runs_lift|]; intros ?).
  apply runs_bind_nil with (x1 := tt); [apply sruns_print|]. intros _.
  change ["z" +:+ fmt ch +:+ "00Z"]
    with (["z" +:+ fmt ch +:+ fmt 0 +:+ fmt 0 +:+ "Z"] ++ []).
  apply runs_bind with (x1 := tt); [apply (sruns_send_leadoff ch 0 0)|]. intros _.
  apply runs_ret.
Qed.

Lemma sruns_measure_loop (board_id fs : Z) (channels : list Z)
    (z_list : list (Z * float)) :
  sruns (Script.measure_loop env board_id fs channels z_list) tt
    (concat (map script_cycle channels)) tt.
Proof.
  revert z_list. induction channels as [|ch rest IH]; intros z_list.
  - apply runs_ret.
  - cbn [Script.measure_loop map concat].
    apply runs_bind with (x1 := tt); [apply sruns_measure_channel|]. intros r. apply IH.
Qed.

Lemma sruns_reset_to_defaults : sruns (Script.reset_to_defaults env) tt ["d"] tt.
Proof.
  intros t _. exists [EConfig "d"].
  unfold Script.reset_to_defaults, try_except, bind, board_config_board, ret.
  destruct (config_reply env t "d"); cbn;
    (split; [reflexivity|]; split; [reflexivity|]; intros _; split; reflexivity).
Qed.

Lemma sruns_release :
  sruns (try_except (board_session env EReleaseSession) any_exception
           (fun _ => ret tt)) tt [] tt.
Proof.
  intros t _. exists [EReleaseSession].
  unfold try_except, board_session, ret.
  destruct (session_reply env t EReleaseSession); cbn;
    (split; [reflexivity|]; split; [reflexivity|]; intros _; split; reflexivity).
Qed.

Lemma sruns_try_finally {A} (m : M Trace A) (fin : M Trace unit)
    (f : list string) :
  sruns m tt f tt -> sruns fin tt [] tt -> sruns (try_finally m fin) tt f tt.
Proof.
  intros Hm Hf t _. destruct (Hm t eq_refl) as (tl1 & Ht1 & Hp1 & Hok1).
  unfold try_finally. destruct (m t) as [r t1] eqn:E. cbn in Ht1, Hok1.
  destruct (Hf t1 eq_refl) as (tl2 & Ht2 & Hp2 & Hok2).
  destruct (fin t1) as [r2 t2] eqn:E2. cbn in Ht2, Hok2.
  assert (Hnil : cmds tl2 = []).
  { destruct Hp2 as [k Hk]. symmetry in Hk. apply app_eq_nil in Hk. tauto. }
  exists (tl1 ++ tl2). subst t1 t2. rewrite cmds_app, Hnil, app_nil_r.
  destruct r2 as [[]|e2]; cbn; rewrite app_assoc.
  - split; [reflexivity|]. split; [exact Hp1|].
    intros Hok. destruct (Hok1 Hok) as [-> _]. split; reflexivity.
  - split; [reflexivity|]. split; [exact Hp1|discriminate].
Qed.

(** The commands of a whole run of the script: a beginning of the cycles
    of the channels followed by the reset, and all of them when the run
    returns. *)
Lemma sruns_check_impedance (channels : list Z) :
  sruns (Script.check_impedance env channels) tt
    (concat (map script_cycle channels) ++ ["d"]) tt.
Proof.
  unfold Script.check_impedance.
  rewrite bool_decide_false by discriminate.
  apply runs_bind_nil with (x1 := tt); [apply runs_lift|]. intros fs.
  apply sruns_try_finally; [|apply sruns_release].
  apply runs_bind_nil with (x1 := tt); [apply sruns_session; reflexivity|].
  intros _.
  apply runs_bind_nil with (x1 := tt); [apply sruns_session; reflexivity|].
  intros _.
  apply runs_bind with (x1 := tt); [apply sruns_measure_loop|]. intros z_list.
  apply runs_bind_nil with (x1 := tt); [apply sruns_session; reflexivity|].
  intros _.
  change ["d"] with (["d"] ++ @nil string).
  apply runs_bind with (x1 := tt); [apply sruns_reset_to_defaults|]. intros _.
  apply runs_ret.
Qed.

End ScriptRun.

(** ** The class's run *)

Section ClassRun.
Import ImpedanceCheck.
Variable env : Env.

Local Abbreviation sruns := (runs (fun t : Trace => t) (fun _ : Trace => tt)).
Local Abbreviation cruns := (runs trace self).

Lemma cruns_io {A} (m : M Trace A) (f : list string) (s : Self) :
  sruns m tt f tt -> cruns (io m) s f s.
Proof.
  intros Hm w Hw. destruct (Hm (trace w) eq_refl) as (tl & Ht & Hp & Hok).
  unfold io. destruct (m (trace w)) as [r t'] eqn:E. cbn in *.
  exists tl. split; [exact Ht|]. split; [exact Hp|].
  intros H. split; [apply Hok; exact H|exact Hw].
Qed.

Lemma cruns_on_board {A} (attr : string) (b : option BoardShim)
    (m : BoardShim -> M Trace A) (f : list string) (s : Self) :
  (forall bs, sruns (m bs) tt f tt) -> cruns (on_board attr b m) s f s.
Proof.
  intros Hm. destruct b as [bs|]; cbn.
  - apply cruns_io. apply Hm.
  - apply runs_throw.
Qed.

Lemma cruns_reset_to_defaults (bs : BoardShim) (s : Self) :
  cruns (reset_to_defaults env (Some bs)) s ["d"] s.
Proof.
  intros w Hw.
  unfold reset_to_defaults, try_except, bind, on_board, io, board_config_board,
    sleep, emit, modify, ret.
  destruct (config_reply env (trace w) "d"); cbn.
  - exists [EConfig "d"; ESleep 0.1]. rewrite <- app_assoc.
    split; [reflexivity|]. split; [reflexivity|]. intros _. split; auto.
  - exists [EConfig "d"].
    split; [reflexivity|]. split; [reflexivity|]. intros _. split; auto.
Qed.

Lemma cruns_leadoff_send (ch : Z) (cmd : string) (s : Self) :
  cruns (leadoff_send env ch cmd) s [cmd] s.
Proof.
  intros w Hw. pose proof (leadoff_send_trace env ch cmd w) as H.
  destruct (board (self w)).
  - destruct H as (r & tl & -> & Hnil & _). cbn.
    exists (EConfig cmd :: tl). split; [reflexivity|]. cbn [cmds]. rewrite Hnil.
    split; [reflexivity|]. intros _. split; auto.
  - rewrite H. cbn. exists []. rewrite app_nil_r. split; [reflexivity|].
    split; [apply prefix_nil|discriminate].
Qed.

Lemma cruns_change_leadoff_on (ch : Z) (s : Self) (cur : Cfg) :
  1 <= ch <= Z.of_nat (length (_ch_cfg s)) ->
  length (_ch_last_cfg s) = length (_ch_cfg s) ->
  _ch_cfg s !! Z.to_nat (ch - 1) = Some cur ->
  cruns (change_leadoff env ch true) s [leadoff_cmd ch true 0 0 1 0 0]
    (enabled ch cur s).
Proof.
  intros Hch Hlen Hcur w Hw. subst s.
  rewrite (change_leadoff_on_eq env ch w cur Hch Hlen Hcur).
  exact (cruns_leadoff_send ch _ (enabled ch cur (self w))
           (set_ch_cfg _ (set_ch_last_cfg _ w)) eq_refl).
Qed.

Lemma cruns_change_leadoff_off (ch : Z) (s : Self) (c : Cfg)
    (gain input_type bias srb2 srb1 : Z) :
  1 <= ch <= Z.of_nat (length (_ch_cfg s)) ->
  length (_ch_last_cfg s) = length (_ch_cfg s) ->
  _ch_last_cfg s !! Z.to_nat (ch - 1) = Some (Some c) ->
  has_fields c gain input_type bias srb2 srb1 ->
  cruns (change_leadoff env ch false) s
    [leadoff_cmd ch false gain input_type bias srb2 srb1] (disabled ch c s).
Proof.
  intros Hch Hlen Hsaved Hf w Hw. subst s.
  rewrite (change_leadoff_off_saved_eq env ch w c _ _ _ _ _ Hch Hlen Hsaved Hf).
  exact (cruns_leadoff_send ch _ (disabled ch c (self w))
           (set_ch_last_cfg _ (set_ch_cfg _ w)) eq_refl).
Qed.

Lemma disabled_enabled_fresh (ch : Z) (s : Self) :
  fresh_tables s -> 1 <= ch <= 8 ->
  disabled ch STREAM_CFG_DEFAULT (enabled ch STREAM_CFG_DEFAULT s) = s.
Proof.
  intros [Hc Hl] Hch. unfold disabled, enabled. cbn.
  rewrite !list_insert_insert_eq.
  rewrite (list_insert_id (_ch_cfg s))
    by (rewrite Hc; apply lookup_replicate_2; lia).
  rewrite (list_insert_id (_ch_last_cfg s))
    by (rewrite Hl; apply lookup_replicate_2; lia).
  destruct s; reflexivity.
Qed.

(** Without a session [check_impedance] fails on its first command to the
    board, after the tables were switched to the impedance measurement. *)
Lemma check_impedance_no_board (ch : Z) (w : World) (cur : Cfg) :
  board (self w) = None ->
  1 <= ch <= Z.of_nat (length (_ch_cfg (self w))) ->
  length (_ch_last_cfg (self w)) = length (_ch_cfg (self w)) ->
  _ch_cfg (self w) !! Z.to_nat (ch - 1) = Some cur ->
  check_impedance env ch w
  = (Raise (none_has_no "config_board"),
     mkWorld (enabled ch cur (self w)) (trace w)).
Proof.
  intros Hb Hch Hlen Hcur. unfold check_impedance.
  rewrite bind_get, Hb, bind_run.
  change (reset_to_defaults env None w)
    with (@Ok (bool * string)
            (false, "ERR: " +:+ exc_str (none_has_no "config_board")), w).
  cbv iota beta. rewrite bind_run.
  rewrite (change_leadoff_on_eq env ch w cur Hch Hlen Hcur).
  match goal with
  | |- context [leadoff_send env ch ?c ?w0] =>
      pose proof (leadoff_send_trace env ch c w0) as H
  end.
  cbn [self set_ch_cfg set_ch_last_cfg board] in H. rewrite Hb in H.
  rewrite H. reflexivity.
Qed.

Lemma cruns_check_impedance (ch : Z) (s : Self) :
  fresh_tables s -> 1 <= ch <= 8 ->
  cruns (check_impedance env ch) s (class_cycle ch) s.
Proof.
  intros Hfresh Hch. pose proof Hfresh as [Hc Hl].
  assert (Hlen : Z.of_nat (length (_ch_cfg s)) = 8)
    by (rewrite Hc, length_replicate; reflexivity).
  assert (Hlenl : length (_ch_last_cfg s) = length (_ch_cfg s))
    by (rewrite Hc, Hl, !length_replicate; reflexivity).
  assert (Hcur : _ch_cfg s !! Z.to_nat (ch - 1) = Some STREAM_CFG_DEFAULT)
    by (rewrite Hc; apply lookup_replicate_2; lia).
  destruct (board s) as [bs|] eqn:Hb.
  - unfold check_impedance, class_cycle.
    apply runs_get. intros w0 Hw0. rewrite Hw0, Hb.
    apply runs_bind_cons with (x1 := s); [apply cruns_reset_to_defaults|].
    intros _.
    apply runs_bind_cons with (x1 := enabled ch STREAM_CFG_DEFAULT s);
      [apply cruns_change_leadoff_on; auto; lia|]. intros _.
    set (s1 := enabled ch STREAM_CFG_DEFAULT s).
    apply runs_get. intros w1 Hw1.
    apply runs_bind_nil with (x1 := s1);
      [apply cruns_on_board; intros; apply sruns_session; reflexivity|].
    intros _. apply runs_get. intros w2 Hw2.
    apply runs_bind_nil with (x1 := s1);
      [apply cruns_on_board; intros; apply sruns_data|].
    intros _.
    apply runs_bind_nil with (x1 := s1); [apply cruns_io, sruns_sleep|].
    intros _. apply runs_get. intros w3 Hw3.
    apply runs_bind_nil with (x1 := s1);
      [apply cruns_on_board; intros; apply sruns_data|].
    intros data. apply runs_get. intros w4 Hw4.
    apply runs_bind_nil with (x1 := s1);
      [apply cruns_on_board; intros; apply runs_ret|].
    intros bid.
    do 3 (apply runs_bind_nil with (x1 := s1); [apply runs_lift|]; intros ?).
    apply runs_get. intros w5 Hw5.
    apply runs_bind_nil with (x1 := s1); [apply runs_lift|]. intros x_bp.
    apply runs_get. intros w6 Hw6.
    apply runs_bind_nil with (x1 := s1); [apply runs_lift|]. intros uVrms.
    apply runs_get. intros w7 Hw7.
    apply runs_bind_nil with (x1 := s1);
      [apply cruns_on_board; intros; apply sruns_session; reflexivity|].
    intros _.
    change [leadoff_cmd ch false 6 0 1 1 0]
      with ([leadoff_cmd ch false 6 0 1 1 0] ++ []).
    assert (Hs : disabled ch STREAM_CFG_DEFAULT s1 = s)
      by (apply disabled_enabled_fresh; assumption).
    apply runs_bind with (x1 := disabled ch STREAM_CFG_DEFAULT s1).
    + apply cruns_change_leadoff_off.
      * unfold s1, enabled; cbn. rewrite length_insert. lia.
      * unfold s1, enabled; cbn. rewrite !length_insert. exact Hlenl.
      * unfold s1, enabled; cbn. apply list_lookup_insert_eq. lia.
      * apply STREAM_CFG_DEFAULT_fields.
    + intros _. rewrite Hs. apply runs_ret.
  - intros w Hw. subst s.
    rewrite (check_impedance_no_board ch w STREAM_CFG_DEFAULT Hb)
      by (auto; lia).
    exists []. cbn. rewrite app_nil_r. split; [reflexivity|].
    split; [apply prefix_nil|discriminate].
Qed.

Lemma cruns_check_channels (channels : list Z) (s : Self) :
  fresh_tables s -> Forall (fun ch => 1 <= ch <= 8) channels ->
  cruns (check_channels env channels) s (concat (map class_cycle channels)) s.
Proof.
  intros Hfresh. induction 1 as [|ch rest Hch _ IH].
  - apply runs_ret.
  - cbn [check_channels map concat].
    apply runs_bind with (x1 := s); [apply cruns_check_impedance; auto|].
    intros z. rewrite <- (app_nil_r (concat (map class_cycle rest))).
    apply runs_bind with (x1 := s); [exact IH|]. intros zs. apply runs_ret.
Qed.

End ClassRun.

(** ** The sequencer *)

Section Sequencer.
Import ImpedanceCheck.

Lemma leadoff_after_cycles_reset (cycles : list (list string)) :
  Forall quiet_cycle cycles ->
  leadoff_after (concat cycles ++ ["d"]) = [] /\
  leadoff_after (concat cycles) = [].
Proof.
  intros H. destruct (quiet_cycles cycles H) as [Hend _].
  unfold leadoff_after. fold (leadoff_from [] (concat cycles ++ ["d"])).
  fold (leadoff_from [] (concat cycles)).
  rewrite leadoff_from_app, Hend. split; reflexivity.
Qed.

(** The script, for any list of channels between 1 and 8. *)
Lemma script_run (env : Env) (channels : list Z) (r : Py (list (Z * float)))
    (t : Trace) :
  Forall (fun ch => 1 <= ch <= 8) channels ->
  Script.check_impedance env channels [] = (r, t) ->
  exclusive t /\
  (is_ok r = true ->
   cmds t = concat (map script_cycle channels) ++ ["d"] /\ leadoff_on t = []).
Proof.
  intros Hch Hrun.
  destruct (sruns_check_impedance env channels [] eq_refl) as (tl & Ht & Hp & Hok).
  rewrite Hrun in Ht, Hok. cbn in Ht, Hok. subst tl.
  assert (Hq : Forall quiet_cycle (map script_cycle channels)).
  { apply Forall_fmap. eapply Forall_impl; [exact Hch|].
    intros ch H. apply script_cycle_quiet. exact H. }
  split.
  - apply (exclusive_of_cycles t _ ["d"] Hq reset_tail_quiet Hp).
  - intros H. destruct (Hok H) as [Hc _]. split; [exact Hc|].
    unfold leadoff_on. rewrite Hc. apply leadoff_after_cycles_reset. exact Hq.
Qed.

(** The class, [check_impedance] channel after channel on fresh tables. *)
Lemma class_run (env : Env) (channels : list Z) (w w' : World)
    (r : Py (list float)) :
  Forall (fun ch => 1 <= ch <= 8) channels ->
  fresh_tables (self w) -> cmds (trace w) = [] ->
  check_channels env channels w = (r, w') ->
  exclusive (trace w') /\
  (is_ok r = true ->
   cmds (trace w') = concat (map class_cycle channels) /\
   leadoff_on (trace w') = [] /\ self w' = self w).
Proof.
  intros Hch Hfresh Hnil Hrun.
  destruct (cruns_check_channels env channels (self w) Hfresh Hch w eq_refl)
    as (tl & Ht & Hp & Hok).
  rewrite Hrun in Ht, Hok. cbn in Ht, Hok.
  assert (Hcm : cmds (trace w') = cmds tl)
    by (rewrite Ht, cmds_app, Hnil; reflexivity).
  rewrite <- Hcm in Hp, Hok.
  assert (Hq : Forall quiet_cycle (map class_cycle channels)).
  { apply Forall_fmap. eapply Forall_impl; [exact Hch|].
    intros ch H. apply class_cycle_quiet. exact H. }
  split.
  - apply (exclusive_of_cycles (trace w') _ [] Hq).
    + intros q Hq'. apply prefix_nil_inv in Hq'. subst q. cbn. lia.
    + rewrite app_nil_r. exact Hp.
  - intros H. destruct (Hok H) as [Hc Hs]. split; [exact Hc|].
    split; [|exact Hs].
    unfold leadoff_on. rewrite Hc. apply leadoff_after_cycles_reset. exact Hq.
Qed.

Lemma default_channels_in_range :
  Forall (fun ch => 1 <= ch <= 8) Script.default_channels.
Proof. unfold Script.default_channels. repeat constructor; lia. Qed.

(** C2. Over channels 1..8, in the script's loop and in the class called
    channel after channel on a fresh object that has sent no command yet,
    at every instant of the
    trace at most one channel has its lead-off current on.  When the run
    returns, the commands sent are exactly, channel after channel, the
    enable and then the disable of that channel (followed in the script
    by the reset to defaults), so that the disable of channel N comes
    before the enable of channel N+1 and no current is left on; in the
    class every saved slot is then empty and every current configuration
    is the streaming default. *)
Theorem sequencer_mutual_exclusion (env : Env) :
  (forall r t,
      Script.check_impedance env Script.default_channels [] = (r, t) ->
      exclusive t /\
      (is_ok r = true ->
       cmds t = concat (map script_cycle Script.default_channels) ++ ["d"] /\
       leadoff_on t = [])) /\
  (forall w r w',
      fresh_tables (self w) -> cmds (trace w) = [] ->
      check_channels env Script.default_channels w = (r, w') ->
      exclusive (trace w') /\
      (is_ok r = true ->
       cmds (trace w') = concat (map class_cycle Script.default_channels) /\
       leadoff_on (trace w') = [] /\
       _ch_last_cfg (self w') = replicate 8 None /\
       _ch_cfg (self w') = replicate 8 STREAM_CFG_DEFAULT)).
Proof.
  split.
  - intros r t Hrun.
    exact (script_run env _ r t default_channels_in_range Hrun).
  - intros w r w' Hfresh Hnil Hrun.
    destruct (class_run env _ w w' r default_channels_in_range Hfresh Hnil Hrun)
      as [Hex Hok].
    split; [exact Hex|]. intros H. destruct (Hok H) as (Hc & Hl & Hs).
    split; [exact Hc|]. split; [exact Hl|]. rewrite Hs.
    destruct Hfresh as [Hcfg Hlast]. split; assumption.
Qed.

Lemma sequencer_mutual_exclusion_witness :
  fresh_tables (self demo_world) /\ cmds (trace demo_world) = [] /\
  is_ok (fst (Script.check_impedance demo_env Script.default_channels [])) = true /\
  is_ok (fst (check_channels demo_env Script.default_channels demo_world)) = true /\
  exclusive (snd (Script.check_impedance demo_env Script.default_channels [])) /\
  cmds (snd (Script.check_impedance demo_env Script.default_channels []))
  = ["x1000100X"; "z101Z"; "z100Z"; "x2000100X"; "z201Z"; "z200Z";
     "x3000100X"; "z301Z"; "z300Z"; "x4000100X"; "z401Z"; "z400Z";
     "x5000100X"; "z501Z"; "z500Z"; "x6000100X"; "z601Z"; "z600Z";
     "x7000100X"; "z701Z"; "z700Z"; "x8000100X"; "z801Z"; "z800Z"; "d"] /\
  exclusive (trace (snd (check_channels demo_env Script.default_channels demo_world))) /\
  _ch_last_cfg (self (snd (check_channels demo_env Script.default_channels demo_world)))
  = replicate 8 None.
Proof.
  assert (Hf : fresh_tables (self demo_world)) by (split; reflexivity).
  assert (Hn : cmds (trace demo_world) = []) by reflexivity.
  assert (Hs : is_ok (fst (Script.check_impedance demo_env
                             Script.default_channels [])) = true)
    by (vm_compute; reflexivity).
  assert (Hc : is_ok (fst (check_channels demo_env Script.default_channels
                             demo_world)) = true)
    by (vm_compute; reflexivity).
  destruct (sequencer_mutual_exclusion demo_env) as [Hscript Hclass].
  destruct (Hscript _ _ (surjective_pairing _)) as [Hex1 Hok1].
  destruct (Hclass demo_world _ _ Hf Hn (surjective_pairing _)) as [Hex2 Hok2].
  destruct (Hok1 Hs) as [Hcmds _].
  destruct (Hok2 Hc) as (_ & _ & Hlast & _).
  split; [exact Hf|]. split; [exact Hn|]. split; [exact Hs|].
  split; [exact Hc|]. split; [exact Hex1|]. split; [exact Hcmds|].
  split; [exact Hex2|exact Hlast].
Defined.

End Sequencer.

(** * Further properties of the code *)

(** ** Channel numbers outside 1..8 *)

Section ChannelRange.
Import ImpedanceCheck.

Lemma py_getitem_negative {A} (l : list A) (i : Z) (x : A) :
  - Z.of_nat (length l) <= i < 0 ->
  l !! Z.to_nat (Z.of_nat (length l) + i) = Some x ->
  py_getitem l i = Ok x.
Proof.
  intros Hi Hx. unfold py_getitem. rewrite py_index_negative by lia.
  rewrite Hx. reflexivity.
Qed.

Lemma py_setitem_negative {A} (l : list A) (i : Z) (x : A) :
  - Z.of_nat (length l) <= i < 0 ->
  py_setitem l i x = Ok (<[Z.to_nat (Z.of_nat (length l) + i) := x]> l).
Proof.
  intros Hi. unfold py_setitem. rewrite py_index_negative by lia. reflexivity.
Qed.

(** X1. A channel number above 8 or below -7 is refused by the list
    indexing itself: [change_leadoff] raises [IndexError], sends nothing
    and leaves the object as it was, for enable and for disable. *)
Theorem change_leadoff_out_of_range (env : Env) (ch : Z) (is_on : bool) (w : World) :
  length (_ch_cfg (self w)) = 8%nat ->
  length (_ch_last_cfg (self w)) = 8%nat ->
  ch < -7 \/ 8 < ch ->
  change_leadoff env ch is_on w = (Raise index_error, w).
Proof.
  intros Hc Hl Hch. unfold change_leadoff. destruct is_on; cbv iota.
  - autorewrite with py. rewrite py_getitem_out by (rewrite Hc; lia).
    autorewrite with py. reflexivity.
  - autorewrite with py. rewrite py_getitem_out by (rewrite Hl; lia).
    autorewrite with py. reflexivity.
Qed.

Lemma change_leadoff_out_of_range_witness :
  length (_ch_cfg (self demo_world)) = 8%nat /\
  length (_ch_last_cfg (self demo_world)) = 8%nat /\
  (9 < -7 \/ 8 < 9) /\
  change_leadoff demo_env 9 true demo_world = (Raise index_error, demo_world).
Proof.
  assert (H1 : length (_ch_cfg (self demo_world)) = 8%nat) by reflexivity.
  assert (H2 : length (_ch_last_cfg (self demo_world)) = 8%nat) by reflexivity.
  assert (H3 : 9 < -7 \/ 8 < 9) by lia.
  split; [exact H1|]. split; [exact H2|]. split; [exact H3|].
  exact (change_leadoff_out_of_range demo_env 9 true demo_world H1 H2 H3).
Defined.

(** X2. A channel number from -7 to 0 is not refused: Python's negative
    indexing makes [change_leadoff] save and reconfigure the entry of
    channel [ch + 8] (channel 0 acts on the entry of channel 8), while the
    command it sends carries the number [ch] as given. *)
Theorem change_leadoff_wraps_around (env : Env) (ch : Z) (w : World) (cur : Cfg) :
  length (_ch_cfg (self w)) = 8%nat ->
  length (_ch_last_cfg (self w)) = 8%nat ->
  -7 <= ch <= 0 ->
  _ch_cfg (self w) !! Z.to_nat (ch + 7) = Some cur ->
  change_leadoff env ch true w
  = leadoff_send env ch (leadoff_cmd ch true 0 0 1 0 0)
      (set_ch_cfg (<[Z.to_nat (ch + 7) := IMP_CFG]> (_ch_cfg (self w)))
         (set_ch_last_cfg
            (<[Z.to_nat (ch + 7) := Some cur]> (_ch_last_cfg (self w))) w)).
Proof.
  intros Hc Hl Hch Hcur. unfold change_leadoff. cbv iota.
  assert (Hk : forall n : nat, n = 8%nat ->
             Z.to_nat (Z.of_nat n + (ch - 1)) = Z.to_nat (ch + 7))
    by (intros n ->; f_equal; lia).
  autorewrite with py.
  rewrite (py_getitem_negative _ (ch - 1) cur)
    by (rewrite ?Hk by assumption; auto; lia).
  autorewrite with py.
  rewrite py_setitem_negative by lia. rewrite (Hk _ Hl). autorewrite with py.
  rewrite py_setitem_negative by (cbn; lia). cbn [self _ch_cfg set_ch_last_cfg].
  rewrite (Hk _ Hc). autorewrite with py.
  rewrite (py_getitem_negative _ (ch - 1) IMP_CFG);
    [|cbn; rewrite length_insert; lia
     |cbn; rewrite length_insert, (Hk _ Hc); apply list_lookup_insert_eq; lia].
  autorewrite with py.
  change (dict_get IMP_CFG "gain") with (@Ok Z 0).
  change (dict_get IMP_CFG "input_type") with (@Ok Z 0).
  change (dict_get IMP_CFG "bias") with (@Ok Z 1).
  change (dict_get IMP_CFG "srb2") with (@Ok Z 0).
  change (dict_get IMP_CFG "srb1") with (@Ok Z 0).
  autorewrite with py. reflexivity.
Qed.

Lemma change_leadoff_wraps_around_witness :
  let w' := snd (change_leadoff demo_env 0 true demo_world) in
  -7 <= 0 <= 0 /\
  fst (change_leadoff demo_env 0 true demo_world) = Ok tt /\
  _ch_cfg (self w') !! 7%nat = Some IMP_CFG /\
  cmds (trace w') = ["x0000100Xz001Z"].
Proof.
  assert (H1 : length (_ch_cfg (self demo_world)) = 8%nat) by reflexivity.
  assert (H2 : length (_ch_last_cfg (self demo_world)) = 8%nat) by reflexivity.
  assert (H3 : -7 <= 0 <= 0) by lia.
  assert (H4 : _ch_cfg (self demo_world) !! Z.to_nat (0 + 7)
               = Some STREAM_CFG_DEFAULT) by reflexivity.
  pose proof (change_leadoff_wraps_around demo_env 0 demo_world STREAM_CFG_DEFAULT
                H1 H2 H3 H4) as H.
  cbv zeta. rewrite H. split; [exact H3|]. vm_compute. repeat split.
Defined.

End ChannelRange.

(** ** Edge cases of the class *)

Section ClassEdges.
Import ImpedanceCheck.

(** X3. The defensive fallback of disable: with an empty saved slot the
    channel's current configuration becomes the streaming default whatever
    it was, the slot stays empty, and with a session present the command
    sent is the default settings followed by lead-off off. *)
Theorem disable_without_saved (env : Env) (ch : Z) (w : World) :
  1 <= ch <= 8 ->
  length (_ch_cfg (self w)) = 8%nat ->
  length (_ch_last_cfg (self w)) = 8%nat ->
  _ch_last_cfg (self w) !! Z.to_nat (ch - 1) = Some None ->
  let w' := snd (change_leadoff env ch false w) in
  _ch_cfg (self w')
  = <[Z.to_nat (ch - 1) := STREAM_CFG_DEFAULT]> (_ch_cfg (self w)) /\
  _ch_last_cfg (self w') = _ch_last_cfg (self w) /\
  (is_Some (board (self w)) ->
   cmds (trace w') = cmds (trace w) ++ [leadoff_cmd ch false 6 0 1 1 0]).
Proof.
  intros Hch Hc Hl Hsaved w'. unfold w'.
  rewrite (change_leadoff_off_none_eq env ch w) by (auto; lia).
  rewrite leadoff_send_self. cbn [self set_ch_cfg _ch_cfg _ch_last_cfg].
  split; [reflexivity|]. split; [reflexivity|].
  intros [bs Hb].
  match goal with
  | |- context [leadoff_send env ch ?c ?w0] =>
      pose proof (leadoff_send_trace env ch c w0) as H
  end.
  cbn [self set_ch_cfg board] in H. rewrite Hb in H.
  destruct H as (r & tl & -> & Hnil & _). cbn.
  rewrite cmds_app. cbn [cmds]. rewrite Hnil. reflexivity.
Qed.

Lemma disable_without_saved_witness :
  let w := snd (change_leadoff demo_env 3 true demo_world) in
  let w0 := set_ch_last_cfg (replicate 8 None) w in
  _ch_cfg (self w0) !! 2%nat = Some IMP_CFG /\
  _ch_last_cfg (self w0) !! Z.to_nat (3 - 1) = Some None /\
  _ch_cfg (self (snd (change_leadoff demo_env 3 false w0))) !! 2%nat
  = Some STREAM_CFG_DEFAULT.
Proof.
  intros w w0.
  assert (H1 : 1 <= 3 <= 8) by lia.
  assert (H2 : length (_ch_cfg (self w0)) = 8%nat) by reflexivity.
  assert (H3 : length (_ch_last_cfg (self w0)) = 8%nat) by reflexivity.
  assert (H4 : _ch_last_cfg (self w0) !! Z.to_nat (3 - 1) = Some None)
    by reflexivity.
  pose proof (disable_without_saved demo_env 3 w0 H1 H2 H3 H4) as (Ha & _).
  split; [reflexivity|]. split; [exact H4|]. rewrite Ha. reflexivity.
Defined.

(** X4. [check_impedance] on an object without a session (before
    [prepare_board]): the reset swallows its own failure, the tables are
    switched to the impedance measurement, and the first command to the
    board raises [AttributeError]; nothing was sent and the channel is
    left with the impedance configuration current and its saved slot
    populated. *)
Theorem check_impedance_without_session (env : Env) (ch : Z) (w : World)
    (cur : Cfg) :
  board (self w) = None ->
  1 <= ch <= 8 ->
  length (_ch_cfg (self w)) = 8%nat ->
  length (_ch_last_cfg (self w)) = 8%nat ->
  _ch_cfg (self w) !! Z.to_nat (ch - 1) = Some cur ->
  let '(r, w') := check_impedance env ch w in
  raised r = Some AttributeError /\
  trace w' = trace w /\
  _ch_cfg (self w') !! Z.to_nat (ch - 1) = Some IMP_CFG /\
  _ch_last_cfg (self w') !! Z.to_nat (ch - 1) = Some (Some cur).
Proof.
  intros Hb Hch Hc Hl Hcur.
  rewrite (check_impedance_no_board env ch w cur Hb) by (auto; lia).
  cbn. split; [reflexivity|]. split; [reflexivity|].
  split; apply list_lookup_insert_eq; lia.
Qed.

Lemma check_impedance_without_session_witness :
  let w := mkWorld (init "/dev/ttyUSB0") [] in
  board (self w) = None /\
  raised (fst (check_impedance demo_env 1 w)) = Some AttributeError /\
  _ch_last_cfg (self (snd (check_impedance demo_env 1 w))) !! 0%nat
  = Some (Some STREAM_CFG_DEFAULT).
Proof.
  intros w.
  assert (H0 : board (self w) = None) by reflexivity.
  assert (H1 : 1 <= 1 <= 8) by lia.
  assert (H2 : length (_ch_cfg (self w)) = 8%nat) by reflexivity.
  assert (H3 : length (_ch_last_cfg (self w)) = 8%nat) by reflexivity.
  assert (H4 : _ch_cfg (self w) !! Z.to_nat (1 - 1) = Some STREAM_CFG_DEFAULT)
    by reflexivity.
  pose proof (check_impedance_without_session demo_env 1 w STREAM_CFG_DEFAULT
                H0 H1 H2 H3 H4) as H.
  destruct (check_impedance demo_env 1 w) as [r w'].
  destruct H as (Ha & _ & _ & Hd). cbn. split; [exact H0|].
  split; [exact Ha|exact Hd].
Defined.

Lemma reset_to_defaults_class (env : Env) (b : option BoardShim) (w : World) :
  exists (ok : bool) (msg : string) (w' : World),
    reset_to_defaults env b w = (Ok (ok, msg), w') /\
    self w' = self w /\
    cmds (trace w') = cmds (trace w) ++ (match b with Some _ => ["d"] | None => [] end) /\
    (ok = true <->
     is_Some b /\ is_ok (config_reply env (trace w) "d") = true) /\
    (if ok then msg = "OK" else exists why, msg = "ERR: " +:+ why).
Proof.
  unfold reset_to_defaults, try_except, bind, on_board, io,
    board_config_board, sleep, emit, modify, ret, throw.
  destruct b as [bs|]; cbn.
  - destruct (config_reply env (trace w) "d") as [resp|e]; cbn.
    + exists true, "OK". eexists. split; [reflexivity|]. cbn.
      rewrite !cmds_app. cbn. rewrite app_nil_r.
      repeat split; eauto.
    + exists false. eexists. eexists. split; [reflexivity|]. cbn.
      rewrite !cmds_app. cbn.
      repeat split; eauto; try discriminate. intros [_ [=]].
  - exists false. eexists. eexists. split; [reflexivity|]. cbn.
    rewrite app_nil_r.
    repeat split; eauto; try discriminate. intros [[? [=]] _].
Qed.

(** X5. [reset_to_defaults] never raises, in the class and in the
    script: it reports [True] exactly when the board answered the command
    [d], otherwise [False] with a message that starts with [ERR: ]; it
    sends at most that one command and leaves the object alone. *)
Theorem reset_to_defaults_never_raises (env : Env) :
  (forall (b : option BoardShim) (w : World),
      exists (ok : bool) (msg : string) (w' : World),
        reset_to_defaults env b w = (Ok (ok, msg), w') /\
        self w' = self w /\
        cmds (trace w') = cmds (trace w) ++ (match b with Some _ => ["d"] | None => [] end) /\
        (ok = true <->
         is_Some b /\ is_ok (config_reply env (trace w) "d") = true) /\
        (if ok then msg = "OK" else exists why, msg = "ERR: " +:+ why)) /\
  (forall t : Trace,
      exists (ok : bool) (msg : string),
        Script.reset_to_defaults env t = (Ok (ok, msg), t ++ [EConfig "d"]) /\
        (ok = true <-> is_ok (config_reply env t "d") = true) /\
        (if ok then msg = "OK" else exists why, msg = "ERR: " +:+ why)).
Proof.
  split.
  - intros b w. apply reset_to_defaults_class.
  - intros t.
    unfold Script.reset_to_defaults, try_except, bind, board_config_board, ret.
    destruct (config_reply env t "d") as [resp|e]; cbn.
    + exists true, "OK". repeat split; eauto.
    + exists false. eexists. repeat split; eauto; discriminate.
Qed.

(** X6. [stop_board] never raises, whatever the session answers and even
    without a session, and it leaves the attributes of the object as they
    were (the session object is not dropped). *)
Theorem stop_board_never_raises (env : Env) (w : World) :
  fst (stop_board env w) = Ok tt /\ self (snd (stop_board env w)) = self w.
Proof.
  unfold stop_board. rewrite bind_get, bind_run.
  destruct (reset_to_defaults_class env (board (self w)) w)
    as (ok & msg & w1 & -> & Hs & _).
  cbv iota beta. rewrite bind_get. rewrite Hs.
  unfold try_except, on_board, io, board_session, throw, ret, any_exception.
  destruct (board (self w)); cbn.
  - destruct (session_reply env (trace w1) EReleaseSession) as [[]|e]; cbn;
      (split; [reflexivity|exact Hs]).
  - split; [reflexivity|exact Hs].
Qed.

End ClassEdges.

(** ** Session life cycle *)

Section LifeCycle.
Import ImpedanceCheck.

(** X7. [prepare_board]: an empty port raises [RuntimeError] and a
    failing sampling-rate query raises its error, both before anything is
    touched; otherwise [fs] takes the queried rate and [board] the new
    session object before [prepare_session] is called, so they stay set
    even when that call fails. *)
Theorem prepare_board_cases (env : Env) (w : World) :
  (port (self w) = "" ->
   prepare_board env w
   = (Raise (mkExc RuntimeError "Cyton serial port not specified."), w)) /\
  (port (self w) <> "" ->
   forall e, get_sampling_rate env (CYTON_BOARD env) = Raise e ->
             prepare_board env w = (Raise e, w)) /\
  (port (self w) <> "" ->
   forall rate, get_sampling_rate env (CYTON_BOARD env) = Ok rate ->
     prepare_board env w
     = (session_reply env (trace w) EPrepareSession,
        mkWorld (mkSelf (port (self w)) (impedance_data (self w))
                   (_ch_cfg (self w)) (_ch_last_cfg (self w))
                   (Some (mkBoard (CYTON_BOARD env) (port (self w)))) rate)
          (trace w ++ [EPrepareSession]))).
Proof.
  unfold prepare_board. rewrite bind_get. split; [|split].
  - intros Hp. rewrite bool_decide_true by exact Hp. reflexivity.
  - intros Hp e He. rewrite bool_decide_false by exact Hp.
    rewrite He. reflexivity.
  - intros Hp rate Hr. rewrite bool_decide_false by exact Hp.
    rewrite Hr. autorewrite with py. reflexivity.
Qed.

Lemma prepare_board_cases_witness :
  let w := mkWorld (init "") [] in
  port (self w) = "" /\
  raised (fst (prepare_board demo_env w)) = Some RuntimeError /\
  snd (prepare_board demo_env w) = w.
Proof.
  intros w.
  assert (H : port (self w) = "") by reflexivity.
  pose proof (proj1 (prepare_board_cases demo_env w) H) as Hr.
  split; [exact H|]. rewrite Hr. split; reflexivity.
Defined.

Lemma release_always (env : Env) (t : Trace) :
  try_except (board_session env EReleaseSession) any_exception
    (fun _ => ret tt) t = (Ok tt, t ++ [EReleaseSession]).
Proof.
  unfold try_except, board_session, ret, any_exception.
  destruct (session_reply env t EReleaseSession) as [[]|e]; reflexivity.
Qed.

(** X8. The script releases the session on every path: once the
    sampling rate is known, whatever fails afterwards (also
    [prepare_session] itself), the trace of [check_impedance] starts with
    [prepare_session] and ends with [release_session]; when the rate
    query fails nothing is done at all. *)
Theorem script_always_releases (env : Env) (channels : list Z) (t0 : Trace) :
  match get_sampling_rate env (CYTON_BOARD env) with
  | Raise e => Script.check_impedance env channels t0 = (Raise e, t0)
  | Ok _ =>
      exists mid : Trace,
        snd (Script.check_impedance env channels t0)
        = t0 ++ EPrepareSession :: mid ++ [EReleaseSession]
  end.
Proof.
  unfold Script.check_impedance. rewrite bool_decide_false by discriminate.
  destruct (get_sampling_rate env (CYTON_BOARD env)) as [fs|e];
    [|reflexivity].
  rewrite bind_lift_ok. unfold try_finally.
  match goal with
  | |- context [bind (board_session env EPrepareSession) ?k t0] =>
      assert (Hbody : exists mid,
                 snd (bind (board_session env EPrepareSession) k t0)
                 = t0 ++ EPrepareSession :: mid);
      [|destruct (bind (board_session env EPrepareSession) k t0) as [r t1]]
  end.
  - rewrite bind_run. unfold board_session at 1.
    destruct (session_reply env t0 EPrepareSession) as [[]|e].
    + match goal with
      | |- context [snd (?m (t0 ++ [EPrepareSession]))] =>
          assert (Hm : runs (fun t : Trace => t) (fun _ : Trace => tt) m tt
                         (concat (map script_cycle channels) ++ ["d"]) tt)
      end.
      { apply runs_bind_nil with (x1 := tt);
          [apply sruns_session; reflexivity|]. intros _.
        apply runs_bind with (x1 := tt); [apply sruns_measure_loop|].
        intros z_list.
        apply runs_bind_nil with (x1 := tt);
          [apply sruns_session; reflexivity|]. intros _.
        change ["d"] with (["d"] ++ @nil string).
        apply runs_bind with (x1 := tt); [apply sruns_reset_to_defaults|].
        intros _. apply runs_ret. }
      destruct (Hm (t0 ++ [EPrepareSession]) eq_refl) as (tl & Ht & _).
      exists tl. rewrite Ht, <- app_assoc. reflexivity.
    + exists []. reflexivity.
  - destruct Hbody as [mid Hmid]. cbn in Hmid. subst t1.
    rewrite release_always. exists mid. cbn.
    rewrite <- app_assoc. reflexivity.
Qed.

End LifeCycle.

(** ** Commands of the two files *)

Section CommandsAgree.
Import ImpedanceCheck.

(** X9. [build_impedance_cmd]: an inactive command has both flags at 0
    whatever the input side; an active one sets exactly the flag of the
    chosen side; for a one-digit channel the command has five
    characters. *)
Theorem build_impedance_cmd_flags (ch : Z) :
  (forall is_n, build_impedance_cmd ch false is_n = "z" +:+ fmt ch +:+ "00Z") /\
  build_impedance_cmd ch true true = "z" +:+ fmt ch +:+ "01Z" /\
  build_impedance_cmd ch true false = "z" +:+ fmt ch +:+ "10Z" /\
  (0 <= ch <= 9 ->
   forall active is_n, String.length (build_impedance_cmd ch active is_n) = 5%nat).
Proof.
  split; [intros []; reflexivity|]. split; [reflexivity|].
  split; [reflexivity|].
  intros Hch active is_n. unfold build_impedance_cmd.
  destruct (fmt_digit ch Hch) as [c ->]. destruct active, is_n; reflexivity.
Qed.

Lemma build_impedance_cmd_flags_witness :
  0 <= 8 <= 9 /\ String.length (build_impedance_cmd 8 true true) = 5%nat.
Proof.
  assert (H : 0 <= 8 <= 9) by lia.
  split; [exact H|].
  exact (proj2 (proj2 (proj2 (build_impedance_cmd_flags 8))) H true true).
Defined.

(** X10. The two files program the same measurement: for any channel
    number, the single command the class sends to enable lead-off is the
    concatenation of the two commands the script sends
    ([set_ads_to_impedance_on], then, when that one was answered,
    [send_leadoff] on the N side), and the script's lead-off off command
    is the class's inactive command. *)
Theorem enable_commands_agree (env : Env) (ch : Z) (t : Trace) :
  let a := "x" +:+ fmt ch +:+ "000100X" in
  let b := "z" +:+ fmt ch +:+ "01Z" in
  leadoff_cmd ch true 0 0 1 0 0 = a +:+ b /\
  (is_ok (config_reply env t a) = true ->
   cmds (snd ((Script.set_ads_to_impedance_on env ch ;;;
               Script.send_leadoff env ch 0 1)%py t))
   = cmds t ++ [a; b]) /\
  cmds (snd (Script.send_leadoff env ch 0 0 t))
  = cmds t ++ [build_impedance_cmd ch false true].
Proof.
  intros a b. split; [|split].
  - unfold leadoff_cmd, build_channel_settings_cmd, build_impedance_cmd, a, b.
    rewrite !string_app_assoc. reflexivity.
  - intros Hok. unfold Script.set_ads_to_impedance_on. cbv zeta.
    rewrite ads_cmd_eq. fold a.
    unfold bind, Script.send_leadoff, board_config_board, sleep, emit, modify.
    destruct (config_reply env t a) as [resp|e]; [|discriminate Hok]. cbn.
    destruct (config_reply env _ _); cbn; rewrite !cmds_app; cbn;
      rewrite ?app_nil_r, <- ?app_assoc; reflexivity.
  - unfold Script.send_leadoff, bind, board_config_board, sleep, emit, modify.
    destruct (config_reply env t _); cbn; rewrite !cmds_app; cbn;
      rewrite ?app_nil_r; reflexivity.
Qed.

Lemma enable_commands_agree_witness :
  is_ok (config_reply demo_env [] ("x" +:+ fmt 2 +:+ "000100X")) = true /\
  cmds (snd ((Script.set_ads_to_impedance_on demo_env 2 ;;;
              Script.send_leadoff demo_env 2 0 1)%py []))
  = ["x2000100X"; "z201Z"] /\
  leadoff_cmd 2 true 0 0 1 0 0 = "x2000100Xz201Z".
Proof.
  assert (H : is_ok (config_reply demo_env [] ("x" +:+ fmt 2 +:+ "000100X"))
              = true) by reflexivity.
  pose proof (enable_commands_agree demo_env 2 []) as (Ha & Hb & _).
  split; [exact H|]. split; [exact (Hb H)|exact Ha].
Defined.

End CommandsAgree.

(** ** Signal processing at the edges *)

Section SignalEdges.
Import ImpedanceCheck.

(** X11. [bandpass_apply] checks neither the rate nor the length of the
    signal: with a sampling rate of 0 the normalisation of the band
    divides by zero and raises [ZeroDivisionError] before SciPy is called;
    at 250 Hz SciPy receives the band edges 0.04 and 0.4 and the samples
    as they are, whatever their number; the two files agree. *)
Theorem bandpass_apply_edges (env : Env) (x : list float) :
  raised (bandpass_apply env x 0) = Some ZeroDivisionError /\
  bandpass_apply env x 250 = scipy_bandpass env 0.04%float 0.4%float x /\
  (forall fs, Script.bandpass_apply env x fs = bandpass_apply env x fs).
Proof.
  split; [reflexivity|]. split; [reflexivity|]. intros fs. reflexivity.
Qed.

Lemma take_250 {A} (x : list A) :
  py_last_n x 250 = drop (length x - 250) x.
Proof.
  unfold py_last_n, py_slice_from. rewrite decide_True by lia.
  f_equal. lia.
Qed.

(** X12. [take_recent_1s] at 250 Hz takes the last 250 samples and
    refuses nothing: a signal of at most 250 samples, the empty one
    included, is used whole, and no error is raised; the class returns the
    root of NumPy's mean of the squares, the script NumPy's deviation of
    the same window. *)
Theorem take_recent_1s_window (env : Env) (x : list float) :
  take_recent_1s env x 250
  = Ok (PrimFloat.sqrt (np_mean env (np_square (drop (length x - 250) x)))) /\
  Script.take_recent_1s env x 250 = Ok (np_std env (drop (length x - 250) x)) /\
  ((length x <= 250)%nat -> drop (length x - 250) x = x) /\
  ((250 <= length x)%nat -> length (drop (length x - 250) x) = 250%nat).
Proof.
  split; [|split; [|split]].
  - unfold take_recent_1s.
    change (py_float_of_int 250) with (Ok 250%float). cbn [pbind].
    change (py_int_of_float (250 * 1.0)%float) with (@Ok Z 250). cbn [pbind].
    rewrite take_250. reflexivity.
  - unfold Script.take_recent_1s.
    change (py_float_of_int 250) with (Ok 250%float). cbn [pbind].
    change (py_int_of_float (250 * 1.0)%float) with (@Ok Z 250). cbn [pbind].
    rewrite take_250. reflexivity.
  - intros H. replace (length x - 250)%nat with 0%nat by lia. reflexivity.
  - intros H. rewrite length_drop. lia.
Qed.

Lemma take_recent_1s_window_witness :
  (length [1%float; 2%float] <= 250)%nat /\
  take_recent_1s demo_env [1%float; 2%float] 250
  = Ok (PrimFloat.sqrt (np_mean demo_env (np_square [1%float; 2%float]))).
Proof.
  assert (H : (length [1%float; 2%float] <= 250)%nat) by (cbn; lia).
  pose proof (take_recent_1s_window demo_env [1%float; 2%float])
    as (Ha & _ & Hb & _).
  split; [exact H|]. rewrite Ha, (Hb H). reflexivity.
Defined.

End SignalEdges.

(** ** The estimate and the formula together *)

Section Composition.
Import ImpedanceCheck.

Lemma Rmean_squares_nonneg (l : list R) :
  l <> [] -> (0 <= Rmean (map (fun v => (v * v)%R) l))%R.
Proof.
  intros Hne. unfold Rmean. rewrite length_map. apply Rmult_le_pos.
  - apply Rsum_squares_nonneg.
  - left. apply Rinv_0_lt_compat. apply lt_0_INR.
    destruct l; [congruence|cbn; lia].
Qed.






End Composition.

(** ** What a successful measurement returns *)

Section Returned.
Import ImpedanceCheck.

Lemma bind_ok_inv {S A B} (m : M S A) (k : A -> M S B) (s s' : S) (b : B) :
  bind m k s = (Ok b, s') ->
  exists a s1, m s = (Ok a, s1) /\ k a s1 = (Ok b, s').
Proof.
  unfold bind. destruct (m s) as [[a|e] s1]; [|discriminate].
  intros H. exists a, s1. split; [reflexivity|exact H].
Qed.

Lemma lift_ok_inv {S A} (r : Py A) (s s' : S) (a : A) :
  lift r s = (Ok a, s') -> r = Ok a /\ s' = s.
Proof. unfold lift. intros [= -> ->]. split; reflexivity. Qed.

Lemma try_finally_ok_inv {S A} (m : M S A) (f : M S unit) (s s' : S) (a : A) :
  try_finally m f s = (Ok a, s') -> exists s1, m s = (Ok a, s1).
Proof.
  unfold try_finally. destruct (m s) as [r s1].
  destruct (f s1) as [[[]|e] s2]; [|discriminate].
  intros [= -> ->]. exists s1. reflexivity.
Qed.

Lemma round_not_negative (mx ex : Z) (lx : location) :
  SFltb (binary_round_aux prec emax false mx ex lx) (S754_zero false) = false.
Proof.
  unfold binary_round_aux.
  destruct (shr_fexp prec emax mx ex lx) as [mrs' e'].
  destruct (shr_fexp prec emax _ e' loc_Exact) as [mrs'' e''].
  destruct (shr_m mrs'') as [|m|m]; [reflexivity| |reflexivity].
  destruct (Z.leb e'' (emax - prec)); reflexivity.
Qed.

(** Dividing by 1000 keeps a value that is not below zero not below
    zero. *)
Lemma div_1000_not_negative (x : float) :
  (x <? 0)%float = false -> (x / 1000.0 <? 0)%float = false.
Proof.
  rewrite !ltb_spec, div_spec.
  change (Prim2SF 0) with (S754_zero false).
  destruct (Prim2SF 1000.0) as [| | |s1000 m1000 e1000] eqn:E;
    try (vm_compute in E; discriminate E).
  assert (Hs : s1000 = false) by (vm_compute in E; congruence). subst s1000.
  unfold SF64div, SFdiv.
  destruct (Prim2SF x) as [s|s| |s m e]; try reflexivity.
  - destruct s; [discriminate|reflexivity].
  - destruct s; [discriminate|]. intros _. cbn [xorb].
    destruct (SFdiv_core_binary _ _ _ _ _ _) as [[mz ez] lz].
    apply round_not_negative.
Qed.

Lemma py_max_zero_not_negative (z : float) :
  (py_max z 0 <? 0)%float = false.
Proof.
  unfold py_max. destruct (z <? 0)%float eqn:E; [reflexivity|exact E].
Qed.

Lemma reported_not_negative (u : float) :
  (Script.z_kohm_of u <? 0)%float = false.
Proof.
  unfold Script.z_kohm_of. destruct (np_isfinite u); [|reflexivity].
  apply div_1000_not_negative. apply py_max_zero_not_negative.
Qed.

(** X15. The value computed for a channel is never below zero, in ohms
    and in kilo-ohms, in both files and for every estimate: it is NaN or a
    number that is not negative (binary64). *)
Theorem reported_value_not_negative (uVrms : float) :
  (z_ohm_of uVrms <? 0)%float = false /\
  (z_ohm_of uVrms / 1000.0 <? 0)%float = false /\
  (Script.z_kohm_of uVrms <? 0)%float = false.
Proof.
  assert (H : (z_ohm_of uVrms <? 0)%float = false).
  { unfold z_ohm_of. destruct (np_isfinite uVrms); [|reflexivity].
    apply py_max_zero_not_negative. }
  split; [exact H|]. split; [apply div_1000_not_negative; exact H|].
  unfold Script.z_kohm_of. destruct (np_isfinite uVrms); [|reflexivity].
  apply div_1000_not_negative. apply py_max_zero_not_negative.
Qed.

Ltac inv_bind H :=
  apply bind_ok_inv in H;
  let a := fresh "a" in let s1 := fresh "s" in let Hm := fresh "Hm" in
  destruct H as (a & s1 & Hm & H).

Lemma script_take_recent_1s_value (env : Env) (x : list float) (fs : Z)
    (u : float) :
  Script.take_recent_1s env x fs = Ok u -> exists seg, u = np_std env seg.
Proof.
  unfold Script.take_recent_1s, pbind.
  destruct (py_float_of_int fs); [|discriminate].
  destruct (py_int_of_float _); [|discriminate].
  intros [= <-]. eexists. reflexivity.
Qed.

Lemma take_recent_1s_value (env : Env) (x : list float) (fs : Z) (u : float) :
  take_recent_1s env x fs = Ok u ->
  exists seg, u = PrimFloat.sqrt (np_mean env (np_square seg)).
Proof.
  unfold take_recent_1s, pbind.
  destruct (py_float_of_int fs); [|discriminate].
  destruct (py_int_of_float _); [|discriminate].
  intros [= <-]. eexists. reflexivity.
Qed.

Lemma measure_channel_value (env : Env) (board_id fs ch : Z) (t t' : Trace)
    (c : Z) (z : float) :
  Script.measure_channel env board_id fs ch t = (Ok (c, z), t') ->
  c = ch /\ exists seg, z = Script.z_kohm_of (np_std env seg).
Proof.
  intros H. unfold Script.measure_channel in H.
  repeat inv_bind H.
  match goal with
  | Hm : lift (Script.take_recent_1s _ _ _) _ = (Ok ?u, _) |- _ =>
      apply lift_ok_inv in Hm as [Hu _];
      apply script_take_recent_1s_value in Hu as [seg ->]
  end.
  unfold ret in H. injection H as <- <- _.
  split; [reflexivity|]. exists seg. reflexivity.
Qed.

Lemma measure_loop_values (env : Env) (board_id fs : Z) (channels : list Z) :
  forall (acc l : list (Z * float)) (t t' : Trace),
    Script.measure_loop env board_id fs channels acc t = (Ok l, t') ->
    exists l', l = acc ++ l' /\ map fst l' = channels /\
               Forall (fun p => exists seg,
                           snd p = Script.z_kohm_of (np_std env seg)) l'.
Proof.
  induction channels as [|ch rest IH]; intros acc l t t' H.
  - cbn in H. injection H as <- _. exists []. rewrite app_nil_r.
    repeat split. constructor.
  - cbn [Script.measure_loop] in H. inv_bind H. destruct a as [c z].
    apply measure_channel_value in Hm as [-> Hz].
    destruct (IH _ _ _ _ H) as (l' & -> & Hfst & Hall).
    exists ((ch, z) :: l'). rewrite <- app_assoc. split; [reflexivity|].
    split; [cbn; rewrite Hfst; reflexivity|].
    constructor; [exact Hz|exact Hall].
Qed.

(** X16. When the script's [check_impedance] returns, its list has one
    pair per requested channel, in the order requested, and each value is
    [z_kohm_of] of NumPy's deviation of some window: NaN or a number that
    is not below zero. *)
Theorem script_results_in_order (env : Env) (channels : list Z)
    (z_list : list (Z * float)) (t t' : Trace) :
  Script.check_impedance env channels t = (Ok z_list, t') ->
  map fst z_list = channels /\
  Forall (fun p => (exists seg, snd p = Script.z_kohm_of (np_std env seg)) /\
                   (snd p <? 0)%float = false) z_list.
Proof.
  intros H. unfold Script.check_impedance in H.
  rewrite bool_decide_false in H by discriminate.
  inv_bind H. apply try_finally_ok_inv in H as [t1 H].
  do 2 inv_bind H. inv_bind H.
  apply measure_loop_values in Hm2 as (l' & -> & Hfst & Hall).
  do 2 inv_bind H. unfold ret in H. injection H as <- _.
  cbn [app]. split; [exact Hfst|].
  eapply Forall_impl; [exact Hall|]. cbv beta. intros p [seg Hp].
  split; [exists seg; exact Hp|]. rewrite Hp.
  apply reported_not_negative.
Qed.

Lemma script_results_in_order_witness :
  exists z_list t',
    Script.check_impedance demo_env [2; 1] [] = (Ok z_list, t') /\
    map fst z_list = [2; 1].
Proof.
  destruct (Script.check_impedance demo_env [2; 1] []) as [r t'] eqn:E.
  assert (Hok : is_ok r = true)
    by (apply (f_equal fst) in E; cbn in E; rewrite <- E; vm_compute;
        reflexivity).
  destruct r as [z_list|e]; [|discriminate Hok].
  exists z_list, t'. split; [reflexivity|].
  exact (proj1 (script_results_in_order demo_env [2; 1] z_list [] t' E)).
Defined.

(** X17. When the class's [check_impedance] returns, the value is the
    formula applied to the root of NumPy's mean of the squares of some
    window, or NaN when that estimate is not finite, divided by 1000; it is
    never below zero. *)
Theorem check_impedance_value (env : Env) (ch : Z) (w w' : World) (z : float) :
  check_impedance env ch w = (Ok z, w') ->
  (exists seg,
      z = (z_ohm_of (PrimFloat.sqrt (np_mean env (np_square seg))) / 1000.0)%float) /\
  (z <? 0)%float = false.
Proof.
  intros H. unfold check_impedance in H.
  repeat inv_bind H.
  match goal with
  | Hm : lift (take_recent_1s _ _ _) _ = (Ok ?u, _) |- _ =>
      apply lift_ok_inv in Hm as [Hu _];
      apply take_recent_1s_value in Hu as [seg ->]
  end.
  unfold ret in H. injection H as <- _.
  split; [exists seg; reflexivity|].
  apply div_1000_not_negative.
  unfold z_ohm_of. destruct (np_isfinite _); [|reflexivity].
  apply py_max_zero_not_negative.
Qed.

Lemma check_impedance_value_witness :
  exists z w',
    check_impedance demo_env 1 demo_world = (Ok z, w') /\
    (z <? 0)%float = false.
Proof.
  destruct (check_impedance demo_env 1 demo_world) as [r w'] eqn:E.
  assert (Hok : is_ok r = true)
    by (apply (f_equal fst) in E; cbn in E; rewrite <- E; vm_compute;
        reflexivity).
  destruct r as [z|e]; [|discriminate Hok].
  exists z, w'. split; [reflexivity|].
  exact (proj2 (check_impedance_value demo_env 1 demo_world w' z E)).
Defined.

End Returned.

(** ** Runs over any channels, from any tables *)

Section GeneralRuns.
Import ImpedanceCheck.

(** X18. Mutual exclusion does not depend on the list of channels: for
    any channels between 1 and 8, in any order and with repetitions, the
    script and the class called channel after channel never have more than
    one lead-off current on, and when the run returns none is left on and
    the class's object is as it was. *)
Theorem exclusion_for_any_channels (env : Env) (channels : list Z) :
  Forall (fun ch => 1 <= ch <= 8) channels ->
  (forall r t,
      Script.check_impedance env channels [] = (r, t) ->
      exclusive t /\ (is_ok r = true -> leadoff_on t = [])) /\
  (forall w r w',
      fresh_tables (self w) -> cmds (trace w) = [] ->
      check_channels env channels w = (r, w') ->
      exclusive (trace w') /\
      (is_ok r = true -> leadoff_on (trace w') = [] /\ self w' = self w)).
Proof.
  intros Hch. split.
  - intros r t Hrun. destruct (script_run env channels r t Hch Hrun) as [He Hok].
    split; [exact He|]. intros H. exact (proj2 (Hok H)).
  - intros w r w' Hf Hn Hrun.
    destruct (class_run env channels w w' r Hch Hf Hn Hrun) as [He Hok].
    split; [exact He|]. intros H. exact (proj2 (Hok H)).
Qed.

Lemma exclusion_for_any_channels_witness :
  Forall (fun ch => 1 <= ch <= 8) [3; 3; 1] /\
  exclusive (snd (Script.check_impedance demo_env [3; 3; 1] [])) /\
  exclusive (trace (snd (check_channels demo_env [3; 3; 1] demo_world))).
Proof.
  assert (H : Forall (fun ch => 1 <= ch <= 8) [3; 3; 1])
    by (repeat constructor; lia).
  destruct (exclusion_for_any_channels demo_env [3; 3; 1] H) as [Hs Hc].
  split; [exact H|]. split.
  - exact (proj1 (Hs _ _ (surjective_pairing _))).
  - refine (proj1 (Hc demo_world _ _ _ _ (surjective_pairing _)));
      [split; reflexivity|reflexivity].
Defined.

Lemma cruns_check_impedance_any (env : Env) (ch : Z) (s : Self) (bs : BoardShim)
    (cur : Cfg) (gain input_type bias srb2 srb1 : Z) :
  1 <= ch <= Z.of_nat (length (_ch_cfg s)) ->
  length (_ch_last_cfg s) = length (_ch_cfg s) ->
  _ch_cfg s !! Z.to_nat (ch - 1) = Some cur ->
  has_fields cur gain input_type bias srb2 srb1 ->
  board s = Some bs ->
  runs trace self (check_impedance env ch) s
    ["d"; leadoff_cmd ch true 0 0 1 0 0;
     leadoff_cmd ch false gain input_type bias srb2 srb1]
    (disabled ch cur (enabled ch cur s)).
Proof.
  intros Hch Hlen Hcur Hf Hb.
  unfold check_impedance.
  apply runs_get. intros w0 Hw0. rewrite Hw0, Hb.
  apply runs_bind_cons with (x1 := s); [apply cruns_reset_to_defaults|].
  intros _.
  apply runs_bind_cons with (x1 := enabled ch cur s);
    [apply cruns_change_leadoff_on; auto|]. intros _.
  set (s1 := enabled ch cur s).
  apply runs_get. intros w1 Hw1.
  apply runs_bind_nil with (x1 := s1);
    [apply cruns_on_board; intros; apply sruns_session; reflexivity|].
  intros _. apply runs_get. intros w2 Hw2.
  apply runs_bind_nil with (x1 := s1);
    [apply cruns_on_board; intros; apply sruns_data|].
  intros _.
  apply runs_bind_nil with (x1 := s1); [apply cruns_io, sruns_sleep|].
  intros _. apply runs_get. intros w3 Hw3.
  apply runs_bind_nil with (x1 := s1);
    [apply cruns_on_board; intros; apply sruns_data|].
  intros data. apply runs_get. intros w4 Hw4.
  apply runs_bind_nil with (x1 := s1);
    [apply cruns_on_board; intros; apply runs_ret|].
  intros bid.
  do 3 (apply runs_bind_nil with (x1 := s1); [apply runs_lift|]; intros ?).
  apply runs_get. intros w5 Hw5.
  apply runs_bind_nil with (x1 := s1); [apply runs_lift|]. intros x_bp.
  apply runs_get. intros w6 Hw6.
  apply runs_bind_nil with (x1 := s1); [apply runs_lift|]. intros uVrms.
  apply runs_get. intros w7 Hw7.
  apply runs_bind_nil with (x1 := s1);
    [apply cruns_on_board; intros; apply sruns_session; reflexivity|].
  intros _.
  change [leadoff_cmd ch false gain input_type bias srb2 srb1]
    with ([leadoff_cmd ch false gain input_type bias srb2 srb1] ++ []).
  apply runs_bind with (x1 := disabled ch cur s1).
  - apply cruns_change_leadoff_off.
    + unfold s1, enabled; cbn. rewrite length_insert. lia.
    + unfold s1, enabled; cbn. rewrite !length_insert. exact Hlen.
    + unfold s1, enabled; cbn. apply list_lookup_insert_eq. lia.
    + exact Hf.
  - intros _. apply runs_ret.
Qed.

(** X19. A [check_impedance] that returns has restored the channel,
    whatever its configuration was: the table of current configurations is
    as before the call, the channel's saved slot is empty, and exactly
    three commands were sent: the reset, the enable with the impedance
    settings, and the disable with the channel's own settings. *)
Theorem check_impedance_restores (env : Env) (ch : Z) (w w' : World) (z : float)
    (cur : Cfg) (gain input_type bias srb2 srb1 : Z) :
  1 <= ch <= 8 ->
  length (_ch_cfg (self w)) = 8%nat ->
  length (_ch_last_cfg (self w)) = 8%nat ->
  _ch_cfg (self w) !! Z.to_nat (ch - 1) = Some cur ->
  has_fields cur gain input_type bias srb2 srb1 ->
  check_impedance env ch w = (Ok z, w') ->
  _ch_cfg (self w') = _ch_cfg (self w) /\
  _ch_last_cfg (self w') = <[Z.to_nat (ch - 1) := None]> (_ch_last_cfg (self w)) /\
  cmds (trace w')
  = cmds (trace w) ++ ["d"; leadoff_cmd ch true 0 0 1 0 0;
                       leadoff_cmd ch false gain input_type bias srb2 srb1].
Proof.
  intros Hch Hc Hl Hcur Hf Hrun.
  destruct (board (self w)) as [bs|] eqn:Hb.
  - destruct (cruns_check_impedance_any env ch (self w) bs cur _ _ _ _ _
                ltac:(lia) ltac:(lia) Hcur Hf Hb w eq_refl)
      as (tl & Ht & _ & Hok).
    rewrite Hrun in Ht, Hok. cbn in Ht, Hok.
    destruct (Hok eq_refl) as [Hcm Hs]. rewrite Hs, Ht, cmds_app, Hcm.
    unfold disabled, enabled. cbn. rewrite !list_insert_insert_eq.
    rewrite (list_insert_id _ _ _ Hcur). repeat split.
  - rewrite (check_impedance_no_board env ch w cur Hb) in Hrun
      by (auto; lia).
    discriminate Hrun.
Qed.

Lemma check_impedance_restores_witness :
  let w := set_ch_cfg (<[4%nat := mk_cfg 3 0 0 1 0]> (replicate 8 STREAM_CFG_DEFAULT))
             demo_world in
  exists z w',
    check_impedance demo_env 5 w = (Ok z, w') /\
    _ch_cfg (self w') = _ch_cfg (self w) /\
    cmds (trace w') = ["d"; "x5000100Xz501Z"; "x5030010Xz500Z"].
Proof.
  intros w.
  destruct (check_impedance demo_env 5 w) as [r w'] eqn:E.
  assert (Hok : is_ok r = true)
    by (apply (f_equal fst) in E; cbn in E; rewrite <- E; vm_compute;
        reflexivity).
  destruct r as [z|e]; [|discriminate Hok].
  assert (H1 : 1 <= 5 <= 8) by lia.
  assert (H2 : length (_ch_cfg (self w)) = 8%nat) by reflexivity.
  assert (H3 : length (_ch_last_cfg (self w)) = 8%nat) by reflexivity.
  assert (H4 : _ch_cfg (self w) !! Z.to_nat (5 - 1) = Some (mk_cfg 3 0 0 1 0))
    by reflexivity.
  assert (H5 : has_fields (mk_cfg 3 0 0 1 0) 3 0 0 1 0)
    by (repeat split; reflexivity).
  pose proof (check_impedance_restores demo_env 5 w w' z _ _ _ _ _ _
                H1 H2 H3 H4 H5 E) as (Ha & _ & Hc).
  exists z, w'. split; [reflexivity|]. split; [exact Ha|exact Hc].
Defined.

End GeneralRuns.

(** ** The timing of one turn of the script's loop *)

Section Timing.








End Timing.
